(** * BoiledEgg microservice: the classification engine and its service boundary

    A shallow embedding of [boiledegg_handler.py] (class [BoiledEggHandler])
    and of the [/smi] route of [main.py].

    Python values are modelled as follows.
    - [str] is [string]; SMILES are ASCII text.
    - [float] is a rational [Q] (every finite double is one).  The builtin
      [round] is a capability of the runtime, see [Externals].
    - [dict] is an insertion-ordered association list, [pydict], with
      Python's update rule: assigning an existing key keeps its position.
    - An exception is a constructor of [Exn]; a call either raises or
      returns, [Result].
    - The handler object ([self.models]) and the standard output are the
      two components of the mutable [World] threaded by the monad [M]. *)

From Stdlib Require Import Ascii QArith Qround Lqa.
From stdpp Require Import base list strings gmap.

Local Open Scope string_scope.
Local Open Scope list_scope.

(** ** Exceptions and outcomes *)

Inductive Exn : Type :=
  | ArgumentError (msg : string)     (* Boost.Python.ArgumentError, from RDKit *)
  | KeyError (key : string)
  | AttributeError (msg : string)
  | HTTPException (status_code : Z) (detail : option string)
  | GeometryError (msg : string).    (* anything shapely may raise *)

(** [str(e)].  [str(KeyError(k))] is the repr of the key. *)
Definition str (e : Exn) : string :=
  match e with
  | ArgumentError msg => msg
  | KeyError key => "'" ++ key ++ "'"
  | AttributeError msg => msg
  | HTTPException code detail =>
      match detail with Some d => d | None => "" end
  | GeometryError msg => msg
  end.

Inductive Result (A : Type) : Type :=
  | Raise (e : Exn)
  | Return (a : A).
Arguments Raise {A} e.
Arguments Return {A} a.

(** ** Insertion-ordered dictionaries *)

Definition pydict (V : Type) : Type := list (string * V).

Section Dict.
Context {V : Type}.

(** [d[k] = v] *)
Fixpoint dict_set (k : string) (v : V) (d : pydict V) : pydict V :=
  match d with
  | [] => [(k, v)]
  | (k', v') :: d' =>
      if String.eqb k k' then (k, v) :: d' else (k', v') :: dict_set k v d'
  end.

(** [d.get(k)] *)
Fixpoint dict_get (k : string) (d : pydict V) : option V :=
  match d with
  | [] => None
  | (k', v') :: d' => if String.eqb k k' then Some v' else dict_get k d'
  end.

(** [d[k]], which raises [KeyError] on a missing key *)
Definition dict_index (k : string) (d : pydict V) : Result V :=
  match dict_get k d with
  | Some v => Return v
  | None => Raise (KeyError k)
  end.

Definition keys (d : pydict V) : list string := d.*1.

(** the dictionary left by the loop [for p in props: d[p] = f(p)] *)
Definition assign_all (f : string -> V) (d : pydict V) (props : list string)
    : pydict V :=
  foldl (fun d p => dict_set p (f p) d) d props.

(** [d1 == d2]: the same keys with the same values, in any order *)
Definition dict_eq (d1 d2 : pydict V) : Prop :=
  forall k, dict_get k d1 = dict_get k d2.
End Dict.

(** ** Geometry *)

Definition Point : Type := (Q * Q)%type.
(** [Polygon(coords)]: the exterior ring as given; shapely closes it. *)
Definition Polygon : Type := list Point.

(** ** The mutable world *)

Record World : Type := mkWorld {
  models : pydict (option Polygon);   (* self.models *)
  stdout : list string                (* lines printed so far *)
}.

Definition M (A : Type) : Type := World -> Result A * World.

Definition ret {A} (a : A) : M A := fun w => (Return a, w).
Definition raise {A} (e : Exn) : M A := fun w => (Raise e, w).
Definition bind {A B} (c : M A) (k : A -> M B) : M B :=
  fun w =>
    match c w with
    | (Return a, w') => k a w'
    | (Raise e, w') => (Raise e, w')
    end.
(** [try: body  except Exception as e: handler e] *)
Definition try_except {A} (body : M A) (handler : Exn -> M A) : M A :=
  fun w =>
    match body w with
    | (Return a, w') => (Return a, w')
    | (Raise e, w') => handler e w'
    end.
(** the result of a call into a library *)
Definition call {A} (r : Result A) : M A := fun w => (r, w).
Definition get_models : M (pydict (option Polygon)) :=
  fun w => (Return (models w), w).
Definition set_models (m : pydict (option Polygon)) : M unit :=
  fun w => (Return tt, mkWorld m (stdout w)).
Definition print (line : string) : M unit :=
  fun w => (Return tt, mkWorld (models w) (stdout w ++ [line])).

#[global] Instance M_ret : MRet M := @ret.
#[global] Instance M_bind : MBind M := fun A B k c => bind c k.

(** ** External collaborators: RDKit, shapely, the boiled_egg data, [round] *)

Class Externals : Type := {
  Mol : Type;
  (** [Chem.MolFromSmiles]: [None] for an unparseable string *)
  MolFromSmiles : string -> option Mol;
  (** [rdMolDescriptors.CalcTPSA(mol, includeSandP)] on a molecule *)
  CalcTPSA : Mol -> bool -> Q;
  (** [Crippen.MolLogP(mol)] on a molecule *)
  CalcLogP : Mol -> Q;
  (** the builtin [round(x, ndigits)] on floats *)
  round : Q -> Z -> Q;
  (** [point.within(other)]; [other] is whatever [self.models] holds *)
  within : Point -> option Polygon -> Result bool;
  (** [BoiledEggBBB.ml_tensor], [BoiledEggGIA.ml_tensor] *)
  BoiledEggBBB_ml_tensor : list Point;
  BoiledEggGIA_ml_tensor : list Point
}.

(** ** Result records *)

(** the inner dict built at lines 57-62 *)
Record PropertyResult : Type := mkPropertyResult {
  pr_property : string;
  pr_status : string;
  pr_results : Q;
  pr_error : option string
}.

(** the dict built at lines 49-54 and at line 67 *)
Record CompoundResult : Type := mkCompoundResult {
  smiles : string;
  status : string;
  results : pydict PropertyResult;
  error : option string
}.

(** What [process_multiple_properties] returns: a dict, or a list of dicts. *)
Inductive PyRet : Type :=
  | RList (l : list CompoundResult)
  | RDict (r : CompoundResult).

(** a value stored in [batch_preds]: a [bool] or a [float] *)
Inductive PyNum : Type :=
  | PyBool (b : bool)
  | PyFloat (q : Q).

(** [float(v)] *)
Definition float (v : PyNum) : Q :=
  match v with
  | PyBool true => 1%Q
  | PyBool false => 0%Q
  | PyFloat q => q
  end.

(** U+26A0 U+FE0F, the warning sign of the message at line 31, in UTF-8 *)
Definition warning_sign : string :=
  String (ascii_of_nat 226) (String (ascii_of_nat 154) (String (ascii_of_nat 160)
  (String (ascii_of_nat 239) (String (ascii_of_nat 184) (String (ascii_of_nat 143)
  EmptyString))))).

Section BoiledEggHandler.
Context {E : Externals}.

Definition AVAILABLE_PROPERTIES : list string := ["BBB"; "GIA"; "TPSA"; "WLogP"].

(** [Descriptors.TPSA(mol, includeSandP=...)]: the Python variable [mol]
    may hold [None], which the C++ signature rejects. *)
Definition Descriptors_TPSA (mol : option Mol) (includeSandP : bool) : Result Q :=
  match mol with
  | Some m => Return (CalcTPSA m includeSandP)
  | None =>
      Raise (ArgumentError
        "Python argument types in rdkit.Chem.rdMolDescriptors.CalcTPSA(NoneType) did not match C++ signature")
  end.

(** [Descriptors.MolLogP(mol)] *)
Definition Descriptors_MolLogP (mol : option Mol) : Result Q :=
  match mol with
  | Some m => Return (CalcLogP m)
  | None =>
      Raise (ArgumentError
        "Python argument types in rdkit.Chem.Crippen.MolLogP(NoneType) did not match C++ signature")
  end.

(** [_load_models] *)
Definition _load_models : M unit :=
  m ← get_models;
  set_models (dict_set "BBB" (Some BoiledEggBBB_ml_tensor) m);;
  m ← get_models;
  set_models (dict_set "GIA" (Some BoiledEggGIA_ml_tensor) m).

(** [__init__] *)
Definition __init__ : M unit :=
  set_models [("BBB", None); ("GIA", None); ("TPSA", None); ("WLogP", None)];;
  _load_models.

(** lines 40-47: [if name in valid_props: batch_preds[name] = value] *)
Definition when_requested (name : string) (valid_props : list string)
    (value : M PyNum) (batch_preds : pydict PyNum) : M (pydict PyNum) :=
  if bool_decide (name ∈ valid_props)
  then v ← value; ret (dict_set name v batch_preds)
  else ret batch_preds.

(** [point.within(self.models[name])] *)
Definition point_within_model (point : Point) (name : string) : M PyNum :=
  m ← get_models;
  model ← call (dict_index name m);
  b ← call (within point model);
  ret (PyBool b).

(** lines 56-62: the loop filling [res_entry["results"]] *)
Fixpoint fill_results (smi : string) (batch_preds : pydict PyNum)
    (props : list string) (res_entry : CompoundResult) : M CompoundResult :=
  match props with
  | [] => ret res_entry
  | prop :: rest =>
      v ← call (dict_index prop batch_preds);
      fill_results smi batch_preds rest
        (mkCompoundResult (smiles res_entry) (status res_entry)
           (dict_set prop (mkPropertyResult prop "success" (float v) None)
              (results res_entry))
           (error res_entry))
  end.

(** lines 37-63: the body of the [try] *)
Definition try_body (smi : string) (valid_props : list string)
    (tpsa wlogp : Q) (point : Point) : M PyRet :=
  batch_preds ← when_requested "BBB" valid_props (point_within_model point "BBB") [];
  batch_preds ← when_requested "GIA" valid_props (point_within_model point "GIA") batch_preds;
  batch_preds ← when_requested "TPSA" valid_props (ret (PyFloat tpsa)) batch_preds;
  batch_preds ← when_requested "WLogP" valid_props (ret (PyFloat wlogp)) batch_preds;
  res_entry ← fill_results smi batch_preds valid_props
                 (mkCompoundResult smi "success" [] None);
  ret (RDict res_entry).

Definition process_multiple_properties (smi : string) (property_list : list string)
    : M PyRet :=
  if bool_decide (smi = "") then ret (RList [])
  else
    let valid_props :=
      filter (fun p => p ∈ AVAILABLE_PROPERTIES) property_list in
    let mol := MolFromSmiles smi in
    (if mol is None
     then print (warning_sign ++ " Skipping unparseable SMILES: " ++ smi)
     else ret tt);;
    tpsa_raw ← call (Descriptors_TPSA mol true);
    let tpsa := round tpsa_raw 2 in
    wlogp_raw ← call (Descriptors_MolLogP mol);
    let wlogp := round wlogp_raw 2 in
    let point : Point := (tpsa, wlogp) in
    try_except (try_body smi valid_props tpsa wlogp point)
      (fun e => ret (RList [mkCompoundResult smi "error" [] (Some (str e))])).

Fixpoint batch_loop (smiles_list : list string) (property_list : list string)
    (res_ls : list PyRet) : M (list PyRet) :=
  match smiles_list with
  | [] => ret res_ls
  | smi :: rest =>
      one_smi_res_obj ← process_multiple_properties smi property_list;
      batch_loop rest property_list (res_ls ++ [one_smi_res_obj])
  end.

Definition process_multiple_properties_batch (smiles_list : list string)
    (property_list : list string) : M (list PyRet) :=
  batch_loop smiles_list property_list [].

End BoiledEggHandler.

(** ** The service boundary: [POST /smi] of [main.py] *)

(** [c.isspace()] on the ASCII range: tab, line feed, vertical tab, form
    feed, carriage return, the four separators 0x1c-0x1f, and space *)
Definition isspace (c : ascii) : bool :=
  let n := nat_of_ascii c in
  ((9 <=? n)%nat && (n <=? 13)%nat) || ((28 <=? n)%nat && (n <=? 32)%nat).

Fixpoint lstrip (s : string) : string :=
  match s with
  | EmptyString => EmptyString
  | String c s' => if isspace c then lstrip s' else s
  end.

Fixpoint rstrip (s : string) : string :=
  match s with
  | EmptyString => EmptyString
  | String c s' =>
      match rstrip s' with
      | EmptyString => if isspace c then EmptyString else String c EmptyString
      | r => String c r
      end
  end.

(** [s.strip()] *)
Definition strip (s : string) : string := rstrip (lstrip s).

(** every character of [s] is whitespace ([s] may be empty) *)
Fixpoint blank (s : string) : bool :=
  match s with
  | EmptyString => true
  | String c s' => isspace c && blank s'
  end.

Record SMILESRequest : Type := mkSMILESRequest {
  req_smiles : string;
  req_property : option (list string)
}.

(** [result.get("status")]: a dict answers, a list has no [get] *)
Definition get_status (result : PyRet) : Result string :=
  match result with
  | RDict r => Return (status r)
  | RList _ => Raise (AttributeError "'list' object has no attribute 'get'")
  end.

(** [result.get("error")] *)
Definition get_error (result : PyRet) : Result (option string) :=
  match result with
  | RDict r => Return (error r)
  | RList _ => Raise (AttributeError "'list' object has no attribute 'get'")
  end.

(** Building the [MultiSMILESResponse] from the unpacked [result]: the
    response model has the fields of the record; unpacking needs a mapping *)
Definition MultiSMILESResponse (result : PyRet) : Result CompoundResult :=
  match result with
  | RDict r => Return r
  | RList _ =>
      Raise (ArgumentError "argument after ** must be a mapping, not list")
  end.

Section Service.
Context {E : Externals}.

(** line 65: the requested list, or all properties when it is absent or empty *)
Definition prop_list_of (request : SMILESRequest) : list string :=
  match req_property request with
  | Some (p :: ps) => p :: ps
  | _ => AVAILABLE_PROPERTIES
  end.

Definition predict_property (request : SMILESRequest) : M CompoundResult :=
  if bool_decide (req_smiles request = "")
     || bool_decide (strip (req_smiles request) = "")
  then raise (HTTPException 400 (Some "SMILES string cannot be empty"))
  else
    let prop_list := prop_list_of request in
    result ← process_multiple_properties (strip (req_smiles request)) prop_list;
    st ← call (get_status result);
    if bool_decide (st = "error")
    then detail ← call (get_error result); raise (HTTPException 500 detail)
    else call (MultiSMILESResponse result).
End Service.

(** ** Point in polygon, as shapely answers [Point.within(Polygon)]

    shapely hands the predicate to GEOS, which locates the point against
    the closed exterior ring by counting ray crossings and reports
    INTERIOR, BOUNDARY or EXTERIOR; [within] holds for INTERIOR only. *)

Module Geometry.

Definition Qltb (x y : Q) : bool := negb (Qle_bool y x).

Definition qmin (x y : Q) : Q := if Qle_bool x y then x else y.
Definition qmax (x y : Q) : Q := if Qle_bool x y then y else x.

Definition pt_eqb (p q : Point) : bool :=
  Qeq_bool (fst p) (fst q) && Qeq_bool (snd p) (snd q).

(** the ring of [Polygon(coords)]: closed by repeating the first vertex
    when the last differs from it *)
Definition close_ring (coords : list Point) : list Point :=
  match coords with
  | [] => []
  | first :: _ =>
      match last coords with
      | Some l => if pt_eqb l first then coords else coords ++ [first]
      | None => coords
      end
  end.

(** consecutive vertex pairs of the closed ring *)
Fixpoint pairs (ring : list Point) : list (Point * Point) :=
  match ring with
  | p1 :: ((p2 :: _) as rest) => (p1, p2) :: pairs rest
  | _ => []
  end.

Definition segments (coords : list Point) : list (Point * Point) :=
  pairs (close_ring coords).

(** sign of the cross product (p2 - p1) x (q - p1) *)
Definition orientationIndex (p1 p2 q : Point) : comparison :=
  ((fst p2 - fst p1) * (snd q - snd p1)
   - (snd p2 - snd p1) * (fst q - fst p1) ?= 0)%Q.

Record RayCrossingCounter : Type := mkCounter {
  isPointOnSegment : bool;
  crossingCount : nat
}.

Definition on_segment (c : RayCrossingCounter) : RayCrossingCounter :=
  mkCounter true (crossingCount c).
Definition crossed (c : RayCrossingCounter) : RayCrossingCounter :=
  mkCounter (isPointOnSegment c) (S (crossingCount c)).

(** one segment against the ray from [point] towards positive x *)
Definition countSegment (point : Point) (c : RayCrossingCounter)
    (seg : Point * Point) : RayCrossingCounter :=
  let '(p1, p2) := seg in
  let px := fst point in let py := snd point in
  (* strictly to the left of the point *)
  if Qltb (fst p1) px && Qltb (fst p2) px then c
  (* the point is the end vertex *)
  else if pt_eqb point p2 then on_segment c
  (* horizontal segments are not counted, only tested *)
  else if Qeq_bool (snd p1) py && Qeq_bool (snd p2) py then
    if Qle_bool (qmin (fst p1) (fst p2)) px && Qle_bool px (qmax (fst p1) (fst p2))
    then on_segment c else c
  (* an upward edge includes its start, a downward edge its end *)
  else if (Qltb py (snd p1) && Qle_bool (snd p2) py)
          || (Qltb py (snd p2) && Qle_bool (snd p1) py) then
    match orientationIndex p1 p2 point with
    | Eq => on_segment c
    | sign =>
        let sign := if Qltb (snd p2) (snd p1) then CompOpp sign else sign in
        if sign is Gt then crossed c else c
    end
  else c.

Inductive Location : Type := INTERIOR | BOUNDARY | EXTERIOR.

Definition locatePointInRing (point : Point) (coords : list Point) : Location :=
  let c := foldl (countSegment point) (mkCounter false 0) (segments coords) in
  if isPointOnSegment c then BOUNDARY
  else if Nat.odd (crossingCount c) then INTERIOR
  else EXTERIOR.

(** [point.within(polygon)] *)
Definition point_within (point : Point) (polygon : Polygon) : bool :=
  if locatePointInRing point polygon is INTERIOR then true else false.

(** [point.covers]-style inclusive test, the one a boundary-inclusive
    classifier would use: [polygon.covers(point)] *)
Definition polygon_covers (polygon : Polygon) (point : Point) : bool :=
  if locatePointInRing point polygon is EXTERIOR then false else true.

(** [p] lies on the closed segment from [a] to [b] *)
Definition lies_on (p a b : Point) : Prop :=
  ((fst b - fst a) * (snd p - snd a) - (snd b - snd a) * (fst p - fst a) == 0
   /\ qmin (fst a) (fst b) <= fst p <= qmax (fst a) (fst b)
   /\ qmin (snd a) (snd b) <= snd p <= qmax (snd a) (snd b))%Q.

(** [p] lies exactly on an edge of the polygon *)
Definition on_edge (p : Point) (polygon : Polygon) : Prop :=
  exists a b, (a, b) ∈ segments polygon /\ lies_on p a b.

End Geometry.

(** shapely's answer as the handler receives it; shapely 2 treats [None]
    as a missing geometry, for which every predicate is [False] *)
Definition shapely_within (point : Point) (other : option Polygon) : Result bool :=
  match other with
  | Some polygon => Return (Geometry.point_within point polygon)
  | None => Return false
  end.

(** ** A concrete instance of the collaborators

    A two-molecule excerpt of the descriptor source, exact decimal
    rounding, shapely's containment test and two rectangular stand-ins for
    the boundary data.  Examples and counterexamples run on it. *)

Module Sample.

Record Descriptors : Type := mkDescriptors {
  tpsa_with_SP : Q;
  tpsa_without_SP : Q;
  logp : Q
}.

Definition parse (smi : string) : option Descriptors :=
  if String.eqb smi "CCO" then Some (mkDescriptors 20.23 20.23 (-0.0014))
  else if String.eqb smi "c1ccccc1" then Some (mkDescriptors 0 0 1.6866)
  else None.

(** decimal rounding, ties to even, on the exact value *)
Definition round_half_even (x : Q) (ndigits : Z) : Q :=
  let scale := inject_Z (10 ^ ndigits) in
  let y := (x * scale)%Q in
  let n := Qfloor y in
  let r :=
    match (y - inject_Z n ?= 1 # 2)%Q with
    | Lt => n
    | Gt => (n + 1)%Z
    | Eq => if Z.even n then n else (n + 1)%Z
    end in
  Qred (inject_Z r / scale).

Definition BBB_box : list Point :=
  [(0, 0.4); (79, 0.4); (79, 6); (0, 6)]%Q.
Definition GIA_box : list Point :=
  [(0, -2.3); (142, -2.3); (142, 6.8); (0, 6.8)]%Q.

#[global] Instance externals : Externals := {|
  Mol := Descriptors;
  MolFromSmiles := parse;
  CalcTPSA := fun m includeSandP =>
    if includeSandP then tpsa_with_SP m else tpsa_without_SP m;
  CalcLogP := logp;
  round := round_half_even;
  within := shapely_within;
  BoiledEggBBB_ml_tensor := BBB_box;
  BoiledEggGIA_ml_tensor := GIA_box
|}.

(** a handler as [BoiledEggHandler()] leaves it, nothing printed yet *)
Definition handler : World :=
  snd (__init__ (mkWorld [] [])).

End Sample.


(** ** What one call computes, read off the handler's dictionary

    The handler only reads [self.models]; these functions give the outcome
    of each step as a function of that dictionary.  The lemmas
    [try_body_spec] and [process_spec] tie them to the code. *)

Section Readings.
Context {E : Externals}.

(** line 25 *)
Definition valid_props (property_list : list string) : list string :=
  filter (fun p => p ∈ AVAILABLE_PROPERTIES) property_list.

(** the outcome of [point.within(self.models[name])] *)
Definition evaluate (ms : pydict (option Polygon)) (point : Point)
    (name : string) : Result PyNum :=
  match dict_index name ms with
  | Raise e => Raise e
  | Return model =>
      match within point model with
      | Raise e => Raise e
      | Return b => Return (PyBool b)
      end
  end.

(** the value lines 40-47 store for a supported property *)
Definition prediction (ms : pydict (option Polygon)) (point : Point)
    (tpsa wlogp : Q) (prop : string) : Result PyNum :=
  if String.eqb prop "BBB" then evaluate ms point "BBB"
  else if String.eqb prop "GIA" then evaluate ms point "GIA"
  else if String.eqb prop "TPSA" then Return (PyFloat tpsa)
  else Return (PyFloat wlogp).

Definition value_of (r : Result PyNum) : Q :=
  match r with
  | Return v => float v
  | Raise _ => 0%Q
  end.

(** the inner dict of lines 57-62 *)
Definition entry (ms : pydict (option Polygon)) (point : Point)
    (tpsa wlogp : Q) (prop : string) : PropertyResult :=
  mkPropertyResult prop "success" (value_of (prediction ms point tpsa wlogp prop)) None.

(** the exception a guarded assignment of lines 40-43 raises, if any *)
Definition failure (name : string) (vp : list string) (r : Result PyNum)
    : option Exn :=
  if bool_decide (name ∈ vp)
  then match r with Raise e => Some e | Return _ => None end
  else None.

Definition try_outcome (smi : string) (vp : list string) (tpsa wlogp : Q)
    (point : Point) (ms : pydict (option Polygon)) : Result PyRet :=
  match failure "BBB" vp (evaluate ms point "BBB") with
  | Some e => Raise e
  | None =>
      match failure "GIA" vp (evaluate ms point "GIA") with
      | Some e => Raise e
      | None =>
          Return (RDict (mkCompoundResult smi "success"
                   (assign_all (entry ms point tpsa wlogp) [] vp) None))
      end
  end.

(** the record of line 67 *)
Definition error_entry (smi : string) (e : Exn) : CompoundResult :=
  mkCompoundResult smi "error" [] (Some (str e)).

(** the line printed at line 31 *)
Definition skipping_line (smi : string) : string :=
  warning_sign ++ " Skipping unparseable SMILES: " ++ smi.

(** outcome and printed lines of [process_multiple_properties] *)
Definition outcome (smi : string) (property_list : list string)
    (ms : pydict (option Polygon)) : Result PyRet * list string :=
  if bool_decide (smi = "") then (Return (RList []), [])
  else
    match MolFromSmiles smi with
    | None => (Raise (ArgumentError
        "Python argument types in rdkit.Chem.rdMolDescriptors.CalcTPSA(NoneType) did not match C++ signature"),
        [skipping_line smi])
    | Some m =>
        let tpsa := round (CalcTPSA m true) 2 in
        let wlogp := round (CalcLogP m) 2 in
        match try_outcome smi (valid_props property_list) tpsa wlogp (tpsa, wlogp) ms with
        | Return v => (Return v, [])
        | Raise e => (Return (RList [error_entry smi e]), [])
        end
    end.

(** the handler, with [lines] more on the standard output *)
Definition printed (lines : list string) (w : World) : World :=
  mkWorld (models w) (stdout w ++ lines).

(** a handler whose models are the ones [__init__] installs *)
Definition constructed (w : World) : Prop :=
  models w = [("BBB", Some BoiledEggBBB_ml_tensor);
              ("GIA", Some BoiledEggGIA_ml_tensor);
              ("TPSA", None); ("WLogP", None)].

(** a SMILES the engine accepts: not empty, and the parser yields a molecule *)
Definition valid_smiles (smi : string) : Prop :=
  smi ≠ "" ∧ is_Some (MolFromSmiles smi).

(** the containment test answers on every polygon *)
Definition within_total : Prop :=
  forall point polygon, exists b, within point (Some polygon) = Return b.
End Readings.

(** ** Reading the returned values *)

(** [r["smiles"]] for each record a returned value holds *)
Definition carried_smiles (v : PyRet) : list string :=
  match v with
  | RDict r => [smiles r]
  | RList l => smiles <$> l
  end.

(** [v["status"]], when [v] is a record *)
Definition record_status (v : PyRet) : option string :=
  match v with
  | RDict r => Some (status r)
  | RList _ => None
  end.

(** [v["smiles"]], when [v] is a record *)
Definition record_smiles (v : PyRet) : option string :=
  match v with
  | RDict r => Some (smiles r)
  | RList _ => None
  end.

(** [v["results"]], when [v] is a record *)
Definition record_results (v : PyRet) : option (pydict PropertyResult) :=
  match v with
  | RDict r => Some (results r)
  | RList _ => None
  end.

(** [v1 == v2] on returned values *)
Definition record_eq (r1 r2 : CompoundResult) : Prop :=
  smiles r1 = smiles r2 ∧ status r1 = status r2
  ∧ dict_eq (results r1) (results r2) ∧ error r1 = error r2.

(** what the entry of a batch for the input [smi] looks like *)
Definition entry_shape (smi : string) (one : PyRet) : Prop :=
  if decide (smi = "") then one = RList []
  else (∃ r, one = RDict r ∧ smiles r = smi ∧ status r = "success" ∧ error r = None)
       ∨ (∃ e, one = RList [error_entry smi e]).

Definition py_eq (v1 v2 : PyRet) : Prop :=
  match v1, v2 with
  | RDict r1, RDict r2 => record_eq r1 r2
  | RList l1, RList l2 => Forall2 record_eq l1 l2
  | _, _ => False
  end.

(** two calls ended the same way: the same exception, or equal values *)
Definition same_result (o1 o2 : Result PyRet) : Prop :=
  match o1, o2 with
  | Return v1, Return v2 => py_eq v1 v2
  | Raise e1, Raise e2 => e1 = e2
  | _, _ => False
  end.

(** ** The service boundary: [POST /upload-smi] of [main.py] *)

(** [text.split("\n")]: the pieces between line feeds; never empty *)
Fixpoint split_lines (text : string) : list string :=
  match text with
  | EmptyString => [EmptyString]
  | String c rest =>
      if Ascii.eqb c (ascii_of_nat 10) then EmptyString :: split_lines rest
      else
        match split_lines rest with
        | [] => [String c EmptyString]
        | line :: lines => String c line :: lines
        end
  end.

(** [sep.join(l)] *)
Fixpoint join (sep : string) (l : list string) : string :=
  match l with
  | [] => EmptyString
  | [x] => x
  | x :: rest => x ++ sep ++ join sep rest
  end.

(** The strict UTF-8 decoder as an automaton over the bytes: either at the
    start of a character, or expecting [remaining] more bytes of which the
    next lies between [lo] and [hi]. *)
Inductive utf8_state : Type :=
  | U_start
  | U_cont (remaining : nat) (lo hi : nat).

Definition utf8_step (st : utf8_state) (b : nat) : option utf8_state :=
  match st with
  | U_start =>
      if (b <=? 127)%nat then Some U_start
      else if (194 <=? b)%nat && (b <=? 223)%nat then Some (U_cont 1 128 191)
      else if (b =? 224)%nat then Some (U_cont 2 160 191)
      else if (b =? 237)%nat then Some (U_cont 2 128 159)
      else if (225 <=? b)%nat && (b <=? 239)%nat then Some (U_cont 2 128 191)
      else if (b =? 240)%nat then Some (U_cont 3 144 191)
      else if (241 <=? b)%nat && (b <=? 243)%nat then Some (U_cont 3 128 191)
      else if (b =? 244)%nat then Some (U_cont 3 128 143)
      else None
  | U_cont remaining lo hi =>
      if (lo <=? b)%nat && (b <=? hi)%nat
      then match remaining with
           | S (S n) => Some (U_cont (S n) 128 191)
           | _ => Some U_start
           end
      else None
  end.

Fixpoint utf8_run (st : utf8_state) (bytes : string) : bool :=
  match bytes with
  | EmptyString => if st is U_start then true else false
  | String c rest =>
      match utf8_step st (nat_of_ascii c) with
      | Some st' => utf8_run st' rest
      | None => false
      end
  end.

(** [contents.decode("utf-8")]: the text, kept as its UTF-8 bytes, or
    [None] where Python raises [UnicodeDecodeError] *)
Definition decode_utf8 (contents : string) : option string :=
  if utf8_run U_start contents then Some contents else None.

(** every byte is below 128 *)
Fixpoint is_ascii (s : string) : bool :=
  match s with
  | EmptyString => true
  | String c rest => (nat_of_ascii c <=? 127)%nat && is_ascii rest
  end.

(** the part of an [UploadFile] the route reads *)
Record UploadFile : Type := mkUploadFile {
  filename : option string;
  contents : string                   (* the bytes [await file.read()] yields *)
}.

Record BatchSMILESResponse : Type := mkBatchSMILESResponse {
  resp_filename : string;
  requested_properties : string;
  total_smiles : nat;
  resp_results : list CompoundResult
}.

(** line 86: [[line.strip() for line in text.split("\n") if line.strip()]] *)
Definition smiles_lines (text : string) : list string :=
  strip <$> filter (fun line => strip line ≠ "") (split_lines text).

(** line 95: the list of [MultiSMILESResponse] built from each unpacked
    result, in order, abandoned at the first value that is not a mapping *)
Fixpoint to_responses (results : list PyRet) : Result (list CompoundResult) :=
  match results with
  | [] => Return []
  | r :: rest =>
      match MultiSMILESResponse r with
      | Raise e => Raise e
      | Return resp =>
          match to_responses rest with
          | Raise e => Raise e
          | Return resps => Return (resp :: resps)
          end
      end
  end.

Section Upload.
Context {E : Externals}.

(** lines 80-81: all properties when none is given *)
Definition property_or_default (property : option (list string)) : list string :=
  match property with
  | Some (p :: ps) => p :: ps
  | _ => AVAILABLE_PROPERTIES
  end.

(** lines 84-102, after the decoding: what [except Exception] guards *)
Definition upload_body (name : string) (property : list string) (text : string)
    : M BatchSMILESResponse :=
  let smiles_list := smiles_lines text in
  if bool_decide (smiles_list = [])
  then raise (HTTPException 400 (Some "File contains no SMILES strings"))
  else
    results ← process_multiple_properties_batch smiles_list property;
    response_results ← call (to_responses results);
    ret (mkBatchSMILESResponse name (join "," property) (length smiles_list)
           response_results).

Definition upload_smiles_file (file : UploadFile) (property : option (list string))
    : M BatchSMILESResponse :=
  (* [not file.filename]: [None] and the empty name alike *)
  let name := default EmptyString (filename file) in
  if bool_decide (name = "")
  then raise (HTTPException 400 (Some "File must have a name"))
  else
    let property := property_or_default property in
    match decode_utf8 (contents file) with
    | None =>
        (* except UnicodeDecodeError *)
        raise (HTTPException 400 (Some "File must be UTF-8 encoded text"))
    | Some text =>
        (* except Exception as e *)
        try_except (upload_body name property text)
          (fun e => raise (HTTPException 500
                             (Some ("Error processing file: " ++ str e)%string)))
    end.
End Upload.

(** ** Order of first request *)

(** the elements of [l] in the order of their first occurrence *)
Fixpoint first_occurrences (l : list string) : list string :=
  match l with
  | [] => []
  | x :: rest => x :: filter (fun y => y ≠ x) (first_occurrences rest)
  end.

(** [earlier] is an initial part of [later] *)
Definition extends (later earlier : list string) : Prop :=
  ∃ more, later = earlier ++ more.

(** * Properties *)

(** ** Dictionaries *)

Section DictFacts.
Context {V : Type}.
Implicit Types (d : pydict V) (k : string) (v : V).

Lemma dict_get_set_eq k v d : dict_get k (dict_set k v d) = Some v.
Proof.
  induction d as [|[k' v'] d IH]; simpl.
  - by rewrite String.eqb_refl.
  - destruct (String.eqb_spec k k') as [->|Hne]; simpl.
    + by rewrite String.eqb_refl.
    + destruct (String.eqb_spec k k'); [done|]. apply IH.
Qed.

Lemma dict_get_set_ne k k' v d :
  k ≠ k' → dict_get k' (dict_set k v d) = dict_get k' d.
Proof.
  intros Hne. induction d as [|[k0 v0] d IH]; simpl.
  - destruct (String.eqb_spec k' k); congruence.
  - destruct (String.eqb_spec k k0) as [->|Hk]; simpl.
    + destruct (String.eqb_spec k' k0); congruence.
    + destruct (String.eqb_spec k' k0); [done|]. apply IH.
Qed.

Lemma dict_get_set k k' v d :
  dict_get k' (dict_set k v d) = if decide (k = k') then Some v else dict_get k' d.
Proof.
  case_decide as Hk.
  - subst. apply dict_get_set_eq.
  - by apply dict_get_set_ne.
Qed.

Lemma dict_get_Some_keys k d : is_Some (dict_get k d) ↔ k ∈ keys d.
Proof.
  unfold keys. induction d as [|[k' v'] d IH]; simpl.
  - split; [intros [? [=]] | intros H; inversion H].
  - destruct (String.eqb_spec k k') as [->|Hne].
    + split; [intros _; left | eauto].
    + rewrite IH. split; [by right|].
      intros H. apply elem_of_cons in H as [?|?]; [done|done].
Qed.

Lemma keys_dict_set k v d :
  keys (dict_set k v d) = if decide (k ∈ keys d) then keys d else keys d ++ [k].
Proof.
  unfold keys. induction d as [|[k' v'] d IH].
  - done.
  - cbn [dict_set]. destruct (String.eqb_spec k k') as [->|Hne].
    + rewrite decide_True; [done | left].
    + rewrite fmap_cons, IH. cbn [fmap list_fmap fst].
      case_decide as H1; case_decide as H2; try done.
      * exfalso. apply H2. by right.
      * exfalso. apply elem_of_cons in H2 as [?|?]; done.
Qed.

Lemma NoDup_keys_dict_set k v d : NoDup (keys d) → NoDup (keys (dict_set k v d)).
Proof.
  intros Hnd. rewrite keys_dict_set. case_decide as Hk; [done|].
  apply NoDup_app. split_and!; [done | | apply NoDup_singleton].
  intros x Hx Hx'. apply list_elem_of_singleton in Hx'. by subst.
Qed.

Lemma dict_get_assign_all f props d k :
  dict_get k (assign_all f d props)
  = if decide (k ∈ props) then Some (f k) else dict_get k d.
Proof.
  unfold assign_all. revert d. induction props as [|p props IH]; intros d; cbn [foldl].
  - rewrite decide_False; [done | by intros ?%elem_of_nil].
  - rewrite IH. case_decide as Hk.
    + rewrite decide_True; [done | by right].
    + rewrite dict_get_set. case_decide as Hp.
      * subst. rewrite decide_True; [done | left].
      * rewrite decide_False; [done|].
        intros [?|?]%elem_of_cons; congruence.
Qed.

Lemma NoDup_keys_assign_all f props d :
  NoDup (keys d) → NoDup (keys (assign_all f d props)).
Proof.
  unfold assign_all. revert d. induction props as [|p props IH]; intros d Hd; simpl.
  - done.
  - apply IH. by apply NoDup_keys_dict_set.
Qed.

Lemma elem_of_keys_assign_all f props d k :
  k ∈ keys (assign_all f d props) ↔ k ∈ keys d ∨ k ∈ props.
Proof.
  rewrite <- !dict_get_Some_keys, dict_get_assign_all.
  case_decide as Hk; split; eauto.
  intros [?|?]; done.
Qed.
End DictFacts.

(** ** The handler step by step *)

Section HandlerFacts.
Context {E : Externals}.

Lemma bind_eq {A B} (c : M A) (k : A → M B) w :
  (c ≫= k) w = match c w with
               | (Return a, w') => k a w'
               | (Raise e, w') => (Raise e, w')
               end.
Proof. reflexivity. Qed.

Lemma printed_nil w : printed [] w = w.
Proof. destruct w. unfold printed. simpl. by rewrite app_nil_r. Qed.

Lemma valid_props_supported property_list p :
  p ∈ valid_props property_list → p ∈ AVAILABLE_PROPERTIES.
Proof. unfold valid_props. rewrite list_elem_of_filter. by intros [? _]. Qed.

Lemma elem_of_valid_props property_list p :
  p ∈ valid_props property_list ↔ p ∈ AVAILABLE_PROPERTIES ∧ p ∈ property_list.
Proof. unfold valid_props. by rewrite list_elem_of_filter. Qed.

Lemma supported_cases p :
  p ∈ AVAILABLE_PROPERTIES → p = "BBB" ∨ p = "GIA" ∨ p = "TPSA" ∨ p = "WLogP".
Proof.
  unfold AVAILABLE_PROPERTIES. rewrite !elem_of_cons, elem_of_nil. tauto.
Qed.

Lemma point_within_model_spec point name w :
  point_within_model point name w = (evaluate (models w) point name, w).
Proof.
  unfold point_within_model, evaluate. rewrite bind_eq. cbn [get_models].
  rewrite bind_eq. unfold call at 1.
  destruct (dict_index name (models w)) as [e|model]; [done|].
  rewrite bind_eq. unfold call.
  by destruct (within point model).
Qed.

Lemma when_requested_spec name vp value r bp w :
  value w = (r, w) →
  when_requested name vp value bp w
  = (if bool_decide (name ∈ vp)
     then match r with
          | Raise e => Raise e
          | Return v => Return (dict_set name v bp)
          end
     else Return bp, w).
Proof.
  intros Hv. unfold when_requested. destruct (bool_decide (name ∈ vp)); [|done].
  rewrite bind_eq, Hv. by destruct r.
Qed.

Lemma fill_results_spec (g : string → Q) smi bp props r0 w :
  (∀ p, p ∈ props → ∃ v, dict_get p bp = Some v ∧ float v = g p) →
  fill_results smi bp props r0 w
  = (Return (mkCompoundResult (smiles r0) (status r0)
       (assign_all (fun p => mkPropertyResult p "success" (g p) None)
          (results r0) props)
       (error r0)), w).
Proof.
  revert r0. induction props as [|p props IH]; intros r0 Hbp.
  - by destruct r0.
  - cbn [fill_results]. rewrite bind_eq. unfold call, dict_index.
    destruct (Hbp p) as (v & -> & Hv); [left|].
    rewrite IH; [|intros q Hq; apply Hbp; by right].
    cbn [smiles status results error]. unfold assign_all. cbn [foldl].
    by rewrite Hv.
Qed.

Lemma try_body_spec smi vp tpsa wlogp point w :
  (∀ p, p ∈ vp → p ∈ AVAILABLE_PROPERTIES) →
  try_body smi vp tpsa wlogp point w
  = (try_outcome smi vp tpsa wlogp point (models w), w).
Proof.
  intros Hvp. unfold try_body, try_outcome, failure.
  rewrite bind_eq, (when_requested_spec _ _ _ _ _ _ (point_within_model_spec _ _ _)).
  destruct (bool_decide ("BBB" ∈ vp)) eqn:HB;
    [destruct (evaluate (models w) point "BBB") as [e1|v1] eqn:H1; [done|] |];
  (rewrite bind_eq, (when_requested_spec _ _ _ _ _ _ (point_within_model_spec _ _ _));
   destruct (bool_decide ("GIA" ∈ vp)) eqn:HG;
     [destruct (evaluate (models w) point "GIA") as [e2|v2] eqn:H2; [done|] |];
   (rewrite bind_eq, (when_requested_spec _ _ _ (Return (PyFloat tpsa)) _ _ eq_refl);
    destruct (bool_decide ("TPSA" ∈ vp)) eqn:HT;
    (rewrite bind_eq, (when_requested_spec _ _ _ (Return (PyFloat wlogp)) _ _ eq_refl);
     destruct (bool_decide ("WLogP" ∈ vp)) eqn:HW;
     (rewrite bind_eq,
        (fill_results_spec (fun p => value_of (prediction (models w) point tpsa wlogp p)));
      [reflexivity|];
      intros p Hp;
      destruct (supported_cases p (Hvp p Hp)) as [-> | [-> | [-> | ->]]];
      try (apply bool_decide_eq_false in HB; done);
      try (apply bool_decide_eq_false in HG; done);
      try (apply bool_decide_eq_false in HT; done);
      try (apply bool_decide_eq_false in HW; done);
      unfold prediction; cbn [String.eqb Ascii.eqb Bool.eqb];
      rewrite ?H1, ?H2; eexists; (split; [reflexivity|reflexivity]))))).
Qed.

Lemma process_spec smi property_list w :
  process_multiple_properties smi property_list w
  = (fst (outcome smi property_list (models w)),
     printed (snd (outcome smi property_list (models w))) w).
Proof.
  unfold process_multiple_properties, outcome.
  destruct (bool_decide (smi = "")); [by rewrite printed_nil|].
  rewrite bind_eq. destruct (MolFromSmiles smi) as [m|]; [|done].
  unfold ret at 1. rewrite bind_eq. cbn [Descriptors_TPSA call].
  rewrite bind_eq. cbn [Descriptors_MolLogP call].
  unfold try_except. rewrite try_body_spec by apply valid_props_supported.
  fold (valid_props property_list).
  destruct try_outcome; by rewrite printed_nil.
Qed.
End HandlerFacts.

Section EngineFacts.
Context {E : Externals}.

Lemma process_empty property_list w :
  process_multiple_properties "" property_list w = (Return (RList []), w).
Proof. reflexivity. Qed.

Lemma unparseable_raises smi property_list w :
  smi ≠ "" → MolFromSmiles smi = None →
  process_multiple_properties smi property_list w
  = (Raise (ArgumentError
       "Python argument types in rdkit.Chem.rdMolDescriptors.CalcTPSA(NoneType) did not match C++ signature"),
     printed [skipping_line smi] w).
Proof.
  intros Hne Hnone. rewrite process_spec. unfold outcome.
  rewrite bool_decide_eq_false_2 by done. by rewrite Hnone.
Qed.

Lemma try_outcome_shape smi vp tpsa wlogp point ms v :
  try_outcome smi vp tpsa wlogp point ms = Return v →
  v = RDict (mkCompoundResult smi "success"
               (assign_all (entry ms point tpsa wlogp) [] vp) None).
Proof.
  unfold try_outcome. repeat case_match; congruence.
Qed.

Lemma process_parsed smi property_list w m :
  smi ≠ "" → MolFromSmiles smi = Some m →
  process_multiple_properties smi property_list w
  = (match try_outcome smi (valid_props property_list)
             (round (CalcTPSA m true) 2) (round (CalcLogP m) 2)
             (round (CalcTPSA m true) 2, round (CalcLogP m) 2) (models w) with
     | Return v => Return v
     | Raise e => Return (RList [error_entry smi e])
     end, w).
Proof.
  intros Hne Hm. rewrite process_spec. unfold outcome.
  rewrite bool_decide_eq_false_2 by done. rewrite Hm. cbn zeta.
  destruct try_outcome; by rewrite printed_nil.
Qed.

Lemma process_returns smi property_list w :
  (smi ≠ "" → is_Some (MolFromSmiles smi)) →
  ∃ one, process_multiple_properties smi property_list w = (Return one, w)
         ∧ entry_shape smi one.
Proof.
  intros Hparse. unfold entry_shape. case_decide as Hsmi.
  - subst. by exists (RList []).
  - destruct (Hparse Hsmi) as [m Hm].
    rewrite (process_parsed _ _ _ m) by done.
    destruct try_outcome as [e|v] eqn:Ht.
    + eexists; split; [done|]. right. by exists e.
    + apply try_outcome_shape in Ht. subst v.
      eexists; split; [done|]. left. by eexists.
Qed.

Lemma batch_loop_cons smi rest property_list res_ls w :
  batch_loop (smi :: rest) property_list res_ls w
  = match process_multiple_properties smi property_list w with
    | (Return one, w') => batch_loop rest property_list (res_ls ++ [one]) w'
    | (Raise e, w') => (Raise e, w')
    end.
Proof. reflexivity. Qed.

Lemma batch_loop_spec smiles_list property_list res_ls w :
  (∀ smi, smi ∈ smiles_list → smi ≠ "" → is_Some (MolFromSmiles smi)) →
  ∃ res, batch_loop smiles_list property_list res_ls w = (Return (res_ls ++ res), w)
         ∧ Forall2 (fun smi one =>
                      process_multiple_properties smi property_list w = (Return one, w)
                      ∧ entry_shape smi one) smiles_list res.
Proof.
  revert res_ls. induction smiles_list as [|smi rest IH]; intros res_ls Hparse.
  - exists []. split; [by rewrite app_nil_r | constructor].
  - destruct (process_returns smi property_list w) as (one & Hone & Hshape).
    { apply Hparse. left. }
    destruct (IH (res_ls ++ [one])) as (res & Hres & Hall).
    { intros s Hs. apply Hparse. by right. }
    exists (one :: res). split.
    + cbn [batch_loop]. rewrite bind_eq, Hone, Hres. by rewrite <- app_assoc.
    + by constructor.
Qed.

Lemma batch_spec smiles_list property_list w :
  (∀ smi, smi ∈ smiles_list → smi ≠ "" → is_Some (MolFromSmiles smi)) →
  ∃ res, process_multiple_properties_batch smiles_list property_list w = (Return res, w)
         ∧ Forall2 (fun smi one =>
                      process_multiple_properties smi property_list w = (Return one, w)
                      ∧ entry_shape smi one) smiles_list res.
Proof.
  intros Hparse. unfold process_multiple_properties_batch.
  by destruct (batch_loop_spec smiles_list property_list [] w Hparse) as (res & ? & ?);
    exists res.
Qed.
End EngineFacts.

(** [BoiledEggHandler()] installs both polygons, whatever was there before *)
Lemma init_constructed `{E : Externals} (w0 : World) :
  constructed (snd (__init__ w0)).
Proof. reflexivity. Qed.

(** ** Failure handling of the engine *)

(** C1 (defect in the code).  On the unparseable input ["not_a_smiles"] the
    handler prints its warning and then raises the descriptor call's
    [ArgumentError] out of [process_multiple_properties]: no record with
    status=error is returned. *)
Theorem unparseable_smiles_escapes :
  process_multiple_properties "not_a_smiles" ["BBB"; "GIA"; "TPSA"; "WLogP"]
    Sample.handler
  = (Raise (ArgumentError
       "Python argument types in rdkit.Chem.rdMolDescriptors.CalcTPSA(NoneType) did not match C++ signature"),
     printed [skipping_line "not_a_smiles"] Sample.handler).
Proof. by apply unparseable_raises. Qed.

(** C3, as stated, fails: for the empty string the value returned is the
    empty list, not a record whose status is error. *)
Lemma empty_smiles_not_error_record :
  ¬ ∃ r, fst (process_multiple_properties "" ["TPSA"] Sample.handler)
         = Return (RDict r)
         ∧ status r = "error" ∧ results r = [].
Proof. intros (r & Hr & _). simpl in Hr. congruence. Qed.

Lemma blank_strip smi : blank smi = true → strip smi = "".
Proof.
  unfold strip. induction smi as [|c smi IH]; [done|].
  cbn [blank lstrip]. intros [Hc Hs]%andb_true_iff. rewrite Hc. by apply IH.
Qed.

(** C3 (amended).  For the empty SMILES string the engine returns the empty
    list, a value with no status and no results mapping, whatever the
    property list and the handler, and leaves the handler as it was. *)
Theorem empty_smiles_returns_empty_list `{E : Externals}
    (property_list : list string) (w : World) :
  ∃ v, process_multiple_properties "" property_list w = (Return v, w)
    ∧ v = RList []
    ∧ record_status v = None ∧ record_results v = None ∧ carried_smiles v = [].
Proof. exists (RList []). split; [apply process_empty | done]. Qed.

(** The service route refuses every blank SMILES with HTTP 400 before it
    calls the engine. *)
Lemma blank_request_refused `{E : Externals} (smi : string)
    (property : option (list string)) (w : World) :
  blank smi = true →
  predict_property (mkSMILESRequest smi property) w
  = (Raise (HTTPException 400 (Some "SMILES string cannot be empty")), w).
Proof.
  intros Hblank. unfold predict_property. cbn [req_smiles].
  rewrite (blank_strip smi Hblank).
  rewrite (bool_decide_eq_true_2 ("" = "")) by done.
  by rewrite orb_true_r.
Qed.

(** ** The batch *)

(** C2, as stated, fails: in the batch of the spec's example the entry for
    the empty string is the empty list; it carries no status. *)
Lemma batch_empty_entry_has_no_status :
  ∃ res, process_multiple_properties_batch ["CCO"; ""; "c1ccccc1"] ["TPSA"]
           Sample.handler = (Return res, Sample.handler)
         ∧ res !! 1%nat = Some (RList [])
         ∧ (res !! 1%nat ≫= record_status) ≠ Some "error".
Proof. eexists. split_and!; [vm_compute; reflexivity | reflexivity | done]. Qed.

(** C2 (amended).  When every non-empty input parses, the batch returns one
    entry per input and each entry is exactly what a single call on that
    input returns, whatever the other inputs are: the empty list for an
    empty string, a success record, or a one-element list holding the error
    record when the containment step raised.  In particular the batch
    ["CCO"; ""; "c1ccccc1"] with ["TPSA"] has three entries, success records
    at 0 and 2 and the empty list at 1. *)
Theorem batch_entries_independent `{E : Externals} (smiles_list : list string)
    (property_list : list string) (w : World) :
  (∀ smi, smi ∈ smiles_list → smi ≠ "" → is_Some (MolFromSmiles smi)) →
  (∃ res, process_multiple_properties_batch smiles_list property_list w
          = (Return res, w)
     ∧ length res = length smiles_list
     ∧ ∀ i smi, smiles_list !! i = Some smi →
         ∃ one, res !! i = Some one
           ∧ process_multiple_properties smi property_list w = (Return one, w)
           ∧ entry_shape smi one)
  ∧ (smiles_list = ["CCO"; ""; "c1ccccc1"] → property_list = ["TPSA"] →
     ∃ r0 r2, process_multiple_properties_batch smiles_list property_list w
              = (Return [RDict r0; RList []; RDict r2], w)
       ∧ status r0 = "success" ∧ status r2 = "success").
Proof.
  intros Hparse.
  destruct (batch_spec smiles_list property_list w Hparse) as (res & Hres & Hall).
  split.
  - exists res. split_and!; [done | symmetry; by eapply Forall2_length |].
    intros i smi Hi.
    destruct (Forall2_lookup_l _ _ _ _ _ Hall Hi) as (one & Hone & Hcall & Hshape).
    by exists one.
  - intros -> ->.
    destruct (Hparse "CCO") as [m0 Hm0]; [set_solver | done |].
    destruct (Hparse "c1ccccc1") as [m2 Hm2]; [set_solver | done |].
    assert (Ht : ∀ smi tpsa wlogp pt ms,
               try_outcome smi (valid_props ["TPSA"]) tpsa wlogp pt ms
               = Return (RDict (mkCompoundResult smi "success"
                   [("TPSA", mkPropertyResult "TPSA" "success" tpsa None)] None)))
      by reflexivity.
    do 2 eexists.
    unfold process_multiple_properties_batch.
    rewrite batch_loop_cons, (process_parsed _ _ _ m0), Ht by done.
    rewrite batch_loop_cons, process_empty.
    rewrite batch_loop_cons, (process_parsed _ _ _ m2), Ht by done.
    cbn [batch_loop app ret]. done.
Qed.

Lemma batch_entries_independent_witness :
  ∃ r0 r2, process_multiple_properties_batch ["CCO"; ""; "c1ccccc1"] ["TPSA"]
             Sample.handler
           = (Return [RDict r0; RList []; RDict r2], Sample.handler)
    ∧ status r0 = "success" ∧ status r2 = "success".
Proof.
  apply (batch_entries_independent ["CCO"; ""; "c1ccccc1"] ["TPSA"] Sample.handler);
    [|reflexivity|reflexivity].
  intros smi Hsmi Hne.
  repeat (apply elem_of_cons in Hsmi as [->|Hsmi]); try done; try by eexists.
  by apply elem_of_nil in Hsmi.
Defined.

(** C4, as stated, fails: the entry for an empty input is the empty list,
    which has no smiles field to equal the input. *)
Lemma batch_entry_without_smiles :
  ∃ res, process_multiple_properties_batch [""] ["TPSA"] Sample.handler
         = (Return res, Sample.handler)
         ∧ length res = 1%nat
         ∧ (res !! 0%nat ≫= record_smiles) ≠ Some "".
Proof. exists [RList []]. split_and!; [reflexivity | reflexivity | done]. Qed.

(** C4 (amended).  When every non-empty input parses, the batch returns
    exactly as many entries as inputs, in input order: the entry for a
    non-empty input carries that input as its smiles (in a record, or in
    the single record of a one-element list), and the entry for an empty
    input is the empty list, which carries none. *)
Theorem batch_preserves_length_and_order `{E : Externals}
    (smiles_list : list string) (property_list : list string) (w : World) :
  (∀ smi, smi ∈ smiles_list → smi ≠ "" → is_Some (MolFromSmiles smi)) →
  ∃ res, process_multiple_properties_batch smiles_list property_list w
         = (Return res, w)
    ∧ length res = length smiles_list
    ∧ ∀ i smi, smiles_list !! i = Some smi →
        ∃ one, res !! i = Some one
          ∧ carried_smiles one = (if decide (smi = "") then [] else [smi]).
Proof.
  intros Hparse.
  destruct (batch_spec smiles_list property_list w Hparse) as (res & Hres & Hall).
  exists res. split_and!; [done | symmetry; by eapply Forall2_length |].
  intros i smi Hi.
  destruct (Forall2_lookup_l _ _ _ _ _ Hall Hi) as (one & Hone & _ & Hshape).
  exists one. split; [done|]. unfold entry_shape in Hshape.
  case_decide; [by subst|].
  destruct Hshape as [(r & -> & <- & _)|(e & ->)]; done.
Qed.

Lemma batch_preserves_length_and_order_witness :
  ∃ res, process_multiple_properties_batch ["c1ccccc1"; ""; "CCO"] ["BBB"; "MW"]
           Sample.handler = (Return res, Sample.handler)
    ∧ length res = 3%nat
    ∧ ∀ i smi, ["c1ccccc1"; ""; "CCO"] !! i = Some smi →
        ∃ one, res !! i = Some one
          ∧ carried_smiles one = (if decide (smi = "") then [] else [smi]).
Proof.
  apply (batch_preserves_length_and_order ["c1ccccc1"; ""; "CCO"] ["BBB"; "MW"]
           Sample.handler).
  intros smi Hsmi Hne.
  repeat (apply elem_of_cons in Hsmi as [->|Hsmi]); try done; try by eexists.
  by apply elem_of_nil in Hsmi.
Defined.

(** ** Classification of a valid SMILES *)

Section Classification.
Context {E : Externals}.

Lemma evaluate_constructed w point :
  constructed w → within_total →
  ∃ b_bbb b_gia,
    within point (Some BoiledEggBBB_ml_tensor) = Return b_bbb
    ∧ within point (Some BoiledEggGIA_ml_tensor) = Return b_gia
    ∧ evaluate (models w) point "BBB" = Return (PyBool b_bbb)
    ∧ evaluate (models w) point "GIA" = Return (PyBool b_gia).
Proof.
  intros Hw Htot.
  destruct (Htot point BoiledEggBBB_ml_tensor) as [b1 H1].
  destruct (Htot point BoiledEggGIA_ml_tensor) as [b2 H2].
  exists b1, b2. unfold evaluate, dict_index. rewrite Hw.
  cbn [dict_get String.eqb Ascii.eqb Bool.eqb]. unfold Polygon in *.
  by rewrite H1, H2.
Qed.

Lemma classify_valid smi property_list w m :
  smi ≠ "" → MolFromSmiles smi = Some m → constructed w → within_total →
  let tpsa := round (CalcTPSA m true) 2 in
  let wlogp := round (CalcLogP m) 2 in
  process_multiple_properties smi property_list w
  = (Return (RDict (mkCompoundResult smi "success"
       (assign_all (entry (models w) (tpsa, wlogp) tpsa wlogp) []
          (valid_props property_list)) None)), w).
Proof.
  intros Hne Hm Hw Htot tpsa wlogp.
  rewrite (process_parsed _ _ _ m) by done. fold tpsa wlogp.
  destruct (evaluate_constructed w (tpsa, wlogp) Hw Htot)
    as (b1 & b2 & _ & _ & H1 & H2).
  unfold try_outcome, failure. rewrite H1, H2.
  by do 2 destruct (bool_decide _).
Qed.

Lemma valid_props_nil property_list :
  list_to_set property_list ∩ list_to_set AVAILABLE_PROPERTIES =@{gset string} ∅ →
  valid_props property_list = [].
Proof.
  intros Hempty. destruct (valid_props property_list) as [|p vp] eqn:Hvp; [done|].
  assert (Hp : p ∈ valid_props property_list) by (rewrite Hvp; left).
  apply elem_of_valid_props in Hp as [Hav Hin].
  assert (p ∈ (∅ : gset string)); [|set_solver].
  rewrite <- Hempty. set_solver.
Qed.
End Classification.

(** C6.  For a valid SMILES, on a handler as constructed and with a
    containment test that answers, the engine returns a record with
    status=success whose results have as key set the requested properties
    that are supported; every entry has status=success; nothing is raised
    for unknown names, and when no requested name is supported the results
    are empty and the status is still success. *)
Theorem classify_key_set `{E : Externals} (smi : string)
    (property_list : list string) (w : World) :
  valid_smiles smi → constructed w → within_total →
  ∃ r, process_multiple_properties smi property_list w = (Return (RDict r), w)
    ∧ smiles r = smi ∧ status r = "success" ∧ error r = None
    ∧ list_to_set (keys (results r))
      =@{gset string} list_to_set property_list ∩ list_to_set AVAILABLE_PROPERTIES
    ∧ (∀ k pr, dict_get k (results r) = Some pr →
         pr_property pr = k ∧ pr_status pr = "success" ∧ pr_error pr = None)
    ∧ (list_to_set property_list ∩ list_to_set AVAILABLE_PROPERTIES =@{gset string} ∅ →
         results r = []).
Proof.
  intros [Hne [m Hm]] Hw Htot.
  eexists. split; [by apply (classify_valid _ _ _ m)|].
  cbn [smiles status error results]. split_and!; try done.
  - apply set_eq. intros k.
    rewrite elem_of_list_to_set, elem_of_keys_assign_all, elem_of_valid_props.
    rewrite elem_of_intersection, !elem_of_list_to_set.
    split; [intros [[]%elem_of_nil|[??]]; done | intros [??]; right; done].
  - intros k pr. rewrite dict_get_assign_all. case_decide; [|done].
    by intros [= <-].
  - intros Hempty. by rewrite (valid_props_nil _ Hempty).
Qed.

Lemma sample_within_total : within_total.
Proof. intros point polygon. by eexists. Qed.

Lemma classify_key_set_witness :
  ∃ r, process_multiple_properties "CCO" ["GIA"; "MW"; "TPSA"; "GIA"] Sample.handler
       = (Return (RDict r), Sample.handler)
    ∧ smiles r = "CCO" ∧ status r = "success" ∧ error r = None
    ∧ list_to_set (keys (results r))
      =@{gset string} list_to_set ["GIA"; "MW"; "TPSA"; "GIA"]
                      ∩ list_to_set AVAILABLE_PROPERTIES
    ∧ (∀ k pr, dict_get k (results r) = Some pr →
         pr_property pr = k ∧ pr_status pr = "success" ∧ pr_error pr = None)
    ∧ (list_to_set ["GIA"; "MW"; "TPSA"; "GIA"] ∩ list_to_set AVAILABLE_PROPERTIES
       =@{gset string} ∅ → results r = []).
Proof.
  apply (classify_key_set "CCO" ["GIA"; "MW"; "TPSA"; "GIA"] Sample.handler).
  - split; [done | by eexists].
  - reflexivity.
  - apply sample_within_total.
Defined.

(** C7.  For a valid SMILES the point is built from TPSA, computed with
    includeSandP enabled, and logP, each rounded to 2 digits, and every
    requested supported property is stored with its value: for BBB and GIA
    the answer of the containment test of that point against the
    property's polygon, as 1 or 0; for TPSA and WLogP the rounded
    descriptor.  No entry of the results holds any other value. *)
Theorem classify_values `{E : Externals} (smi : string)
    (property_list : list string) (w : World) :
  valid_smiles smi → constructed w → within_total →
  ∃ m r b_bbb b_gia,
    MolFromSmiles smi = Some m
    ∧ process_multiple_properties smi property_list w = (Return (RDict r), w)
    ∧ let tpsa := round (CalcTPSA m true) 2 in
      let wlogp := round (CalcLogP m) 2 in
      within (tpsa, wlogp) (Some BoiledEggBBB_ml_tensor) = Return b_bbb
      ∧ within (tpsa, wlogp) (Some BoiledEggGIA_ml_tensor) = Return b_gia
      ∧ ("BBB" ∈ property_list →
           dict_get "BBB" (results r)
           = Some (mkPropertyResult "BBB" "success"
                     (if b_bbb then 1%Q else 0%Q) None))
      ∧ ("GIA" ∈ property_list →
           dict_get "GIA" (results r)
           = Some (mkPropertyResult "GIA" "success"
                     (if b_gia then 1%Q else 0%Q) None))
      ∧ ("TPSA" ∈ property_list →
           dict_get "TPSA" (results r)
           = Some (mkPropertyResult "TPSA" "success" tpsa None))
      ∧ ("WLogP" ∈ property_list →
           dict_get "WLogP" (results r)
           = Some (mkPropertyResult "WLogP" "success" wlogp None))
      ∧ ∀ k pr, dict_get k (results r) = Some pr →
          (k = "BBB" → pr_results pr = if b_bbb then 1%Q else 0%Q)
          ∧ (k = "GIA" → pr_results pr = if b_gia then 1%Q else 0%Q)
          ∧ (k = "TPSA" → pr_results pr = tpsa)
          ∧ (k = "WLogP" → pr_results pr = wlogp).
Proof.
  intros [Hne [m Hm]] Hw Htot.
  destruct (evaluate_constructed w
              (round (CalcTPSA m true) 2, round (CalcLogP m) 2) Hw Htot)
    as (b1 & b2 & Hb1 & Hb2 & H1 & H2).
  exists m. eexists. exists b1, b2.
  split; [done|]. split; [by apply (classify_valid _ _ _ m)|].
  cbn zeta. cbn [results].
  assert (Hstored : ∀ k, k ∈ AVAILABLE_PROPERTIES → k ∈ property_list →
            dict_get k
              (assign_all
                 (entry (models w) (round (CalcTPSA m true) 2, round (CalcLogP m) 2)
                    (round (CalcTPSA m true) 2) (round (CalcLogP m) 2))
                 [] (valid_props property_list))
            = Some (entry (models w)
                      (round (CalcTPSA m true) 2, round (CalcLogP m) 2)
                      (round (CalcTPSA m true) 2) (round (CalcLogP m) 2) k)).
  { intros k Hav Hin. rewrite dict_get_assign_all.
    rewrite decide_True; [done | by apply elem_of_valid_props]. }
  assert (Hbbb : float (PyBool b1) = if b1 then 1%Q else 0%Q) by by destruct b1.
  assert (Hgia : float (PyBool b2) = if b2 then 1%Q else 0%Q) by by destruct b2.
  split; [done|]. split; [done|].
  split; [|split; [|split; [|split]]].
  - intros Hin. rewrite Hstored; [|set_solver|done].
    unfold entry, prediction. cbn [String.eqb Ascii.eqb Bool.eqb].
    rewrite H1. cbn [value_of]. by rewrite Hbbb.
  - intros Hin. rewrite Hstored; [|set_solver|done].
    unfold entry, prediction. cbn [String.eqb Ascii.eqb Bool.eqb].
    rewrite H2. cbn [value_of]. by rewrite Hgia.
  - intros Hin. rewrite Hstored; [|set_solver|done]. reflexivity.
  - intros Hin. rewrite Hstored; [|set_solver|done]. reflexivity.
  - intros k pr. rewrite dict_get_assign_all.
    case_decide; [|done]. intros [= <-]. unfold entry, prediction.
    cbn [pr_results].
    split_and!; intros ->; cbn [String.eqb Ascii.eqb Bool.eqb];
      rewrite ?H1, ?H2; cbn [value_of float]; by repeat case_match.
Qed.

Lemma classify_values_witness :
  ∃ m r b_bbb b_gia,
    MolFromSmiles "c1ccccc1" = Some m
    ∧ process_multiple_properties "c1ccccc1" ["WLogP"; "BBB"] Sample.handler
      = (Return (RDict r), Sample.handler)
    ∧ let tpsa := round (CalcTPSA m true) 2 in
      let wlogp := round (CalcLogP m) 2 in
      within (tpsa, wlogp) (Some BoiledEggBBB_ml_tensor) = Return b_bbb
      ∧ within (tpsa, wlogp) (Some BoiledEggGIA_ml_tensor) = Return b_gia
      ∧ ("BBB" ∈ ["WLogP"; "BBB"] →
           dict_get "BBB" (results r)
           = Some (mkPropertyResult "BBB" "success"
                     (if b_bbb then 1%Q else 0%Q) None))
      ∧ ("GIA" ∈ ["WLogP"; "BBB"] →
           dict_get "GIA" (results r)
           = Some (mkPropertyResult "GIA" "success"
                     (if b_gia then 1%Q else 0%Q) None))
      ∧ ("TPSA" ∈ ["WLogP"; "BBB"] →
           dict_get "TPSA" (results r)
           = Some (mkPropertyResult "TPSA" "success" tpsa None))
      ∧ ("WLogP" ∈ ["WLogP"; "BBB"] →
           dict_get "WLogP" (results r)
           = Some (mkPropertyResult "WLogP" "success" wlogp None))
      ∧ ∀ k pr, dict_get k (results r) = Some pr →
          (k = "BBB" → pr_results pr = if b_bbb then 1%Q else 0%Q)
          ∧ (k = "GIA" → pr_results pr = if b_gia then 1%Q else 0%Q)
          ∧ (k = "TPSA" → pr_results pr = tpsa)
          ∧ (k = "WLogP" → pr_results pr = wlogp).
Proof.
  apply (classify_values "c1ccccc1" ["WLogP"; "BBB"] Sample.handler).
  - split; [done | by eexists].
  - reflexivity.
  - apply sample_within_total.
Defined.

(** ** Determinism *)

(** C8.  A call leaves [self.models] as it found it, and its outcome is a
    function of the inputs and of [self.models] alone: a second call with
    the same inputs, made after the first, ends in the same way with the
    same value, and so does a call on any handler holding the same models. *)
Theorem classify_deterministic `{E : Externals} (smi : string)
    (property_list : list string) (w : World) :
  let first := process_multiple_properties smi property_list w in
  let second := process_multiple_properties smi property_list (snd first) in
  fst second = fst first
  ∧ models (snd first) = models w
  ∧ models (snd second) = models w
  ∧ ∀ w', models w' = models w →
      fst (process_multiple_properties smi property_list w') = fst first.
Proof.
  cbn zeta. rewrite !process_spec. cbn [fst snd printed models].
  split_and!; try done.
  intros w' Hw'. by rewrite process_spec, Hw'.
Qed.

(** ** The two shapes of the returned value *)

Lemma strip_nonempty s : strip s ≠ "" → s ≠ "".
Proof. by intros Hs ->. Qed.

(** C9.  For an input that parses, when the guarded block returns, the
    engine returns a single record, which the service route turns into its
    response; when the guarded block raises, the engine returns a
    one-element list wrapping the error record, and the service route,
    which asks the returned value for its status as if it were a record,
    raises [AttributeError] instead of reporting the captured error. *)
Theorem return_shapes_differ `{E : Externals} (request : SMILESRequest)
    (w : World) (m : Mol) :
  let smi := strip (req_smiles request) in
  let P := prop_list_of request in
  let tpsa := round (CalcTPSA m true) 2 in
  let wlogp := round (CalcLogP m) 2 in
  smi ≠ "" → MolFromSmiles smi = Some m →
  match try_body smi (valid_props P) tpsa wlogp (tpsa, wlogp) w with
  | (Return _, w') =>
      ∃ r, process_multiple_properties smi P w = (Return (RDict r), w')
        ∧ smiles r = smi ∧ status r = "success" ∧ error r = None
        ∧ predict_property request w = (Return r, w')
  | (Raise e, w') =>
      process_multiple_properties smi P w
      = (Return (RList [mkCompoundResult smi "error" [] (Some (str e))]), w')
      ∧ predict_property request w
        = (Raise (AttributeError "'list' object has no attribute 'get'"), w')
  end.
Proof.
  intros smi P tpsa wlogp Hne Hm.
  rewrite try_body_spec by apply valid_props_supported.
  assert (Hguard : bool_decide (req_smiles request = "")
                   || bool_decide (strip (req_smiles request) = "") = false).
  { apply orb_false_iff. split; apply bool_decide_eq_false_2; [|done].
    by apply strip_nonempty. }
  pose proof (process_parsed smi P w m Hne Hm) as Hcall.
  fold tpsa wlogp in Hcall.
  unfold predict_property. rewrite Hguard. cbn zeta. fold smi P.
  rewrite bind_eq, Hcall.
  destruct try_outcome as [e|v] eqn:Ht.
  - split; [done|]. reflexivity.
  - apply try_outcome_shape in Ht. subst v.
    eexists. split_and!; try reflexivity.
Qed.

(** the guarded block raising: a handler whose models were never installed *)
Lemma return_shapes_differ_witness :
  process_multiple_properties "CCO" ["BBB"] (mkWorld [] [])
  = (Return (RList [mkCompoundResult "CCO" "error" [] (Some "'BBB'")]), mkWorld [] [])
  ∧ predict_property (mkSMILESRequest " CCO" (Some ["BBB"])) (mkWorld [] [])
    = (Raise (AttributeError "'list' object has no attribute 'get'"), mkWorld [] []).
Proof.
  apply (return_shapes_differ (E := Sample.externals)
           (mkSMILESRequest " CCO" (Some ["BBB"])) (mkWorld [] [])
           (Sample.mkDescriptors 20.23 20.23 (-0.0014))).
  - done.
  - reflexivity.
Defined.

(** ** Duplicates in the requested list *)

Section Duplicates.
Context {E : Externals}.

Lemma valid_props_same_elements P P' :
  (∀ x, x ∈ P ↔ x ∈ P') → ∀ x, x ∈ valid_props P ↔ x ∈ valid_props P'.
Proof. intros H x. rewrite !elem_of_valid_props. by rewrite H. Qed.

Lemma failure_same_elements name vp vp' r :
  (∀ x, x ∈ vp ↔ x ∈ vp') → failure name vp r = failure name vp' r.
Proof.
  intros H. unfold failure.
  by rewrite (bool_decide_ext (name ∈ vp) (name ∈ vp') (H name)).
Qed.

Lemma try_outcome_same_elements smi vp vp' tpsa wlogp point ms :
  (∀ x, x ∈ vp ↔ x ∈ vp') →
  same_result (try_outcome smi vp tpsa wlogp point ms)
              (try_outcome smi vp' tpsa wlogp point ms).
Proof.
  intros H. unfold try_outcome.
  rewrite !(failure_same_elements _ vp vp') by done.
  repeat case_match; try done.
  cbn [same_result py_eq]. unfold record_eq, dict_eq.
  cbn [smiles status results error]. split_and!; try done.
  intros k. rewrite !dict_get_assign_all. by apply decide_ext.
Qed.

Lemma outcome_same_elements smi P P' ms :
  (∀ x, x ∈ P ↔ x ∈ P') →
  same_result (fst (outcome smi P ms)) (fst (outcome smi P' ms))
  ∧ snd (outcome smi P ms) = snd (outcome smi P' ms).
Proof.
  intros H. unfold outcome. case_bool_decide; [by split; [constructor|]|].
  destruct (MolFromSmiles smi) as [m|]; [|done]. cbn zeta.
  pose proof (try_outcome_same_elements smi _ _
                (round (CalcTPSA m true) 2) (round (CalcLogP m) 2)
                (round (CalcTPSA m true) 2, round (CalcLogP m) 2) ms
                (valid_props_same_elements P P' H)) as Hsame.
  destruct (try_outcome smi (valid_props P)) as [e|v];
    destruct (try_outcome smi (valid_props P')) as [e'|v']; try done.
  cbn in Hsame. subst e'. split; [|done]. cbn.
  constructor; [|constructor]. done.
Qed.

Lemma outcome_NoDup smi P ms r :
  fst (outcome smi P ms) = Return (RDict r) → NoDup (keys (results r)).
Proof.
  unfold outcome. case_bool_decide; [done|].
  destruct (MolFromSmiles smi) as [m|]; [|done]. cbn zeta.
  destruct try_outcome as [e|v] eqn:Ht; [done|].
  apply try_outcome_shape in Ht. subst v. intros [= <-]. cbn [results].
  apply NoDup_keys_assign_all. constructor.
Qed.
End Duplicates.

(** C10.  Two requested lists with the same elements, however often each
    is repeated, give the same outcome: the same exception, or equal
    values and the same printed lines; and the results of a returned
    record hold each property name at most once. *)
Theorem classify_ignores_duplicates `{E : Externals} (smi : string)
    (P P' : list string) (w : World) :
  (∀ x, x ∈ P ↔ x ∈ P') →
  same_result (fst (process_multiple_properties smi P w))
              (fst (process_multiple_properties smi P' w))
  ∧ snd (process_multiple_properties smi P w)
    = snd (process_multiple_properties smi P' w)
  ∧ ∀ r, fst (process_multiple_properties smi P' w) = Return (RDict r) →
      NoDup (keys (results r)).
Proof.
  intros H. rewrite !process_spec. cbn [fst snd].
  destruct (outcome_same_elements smi P P' (models w) H) as [Hres Hout].
  split_and!; [done | by rewrite Hout |].
  intros r. apply outcome_NoDup.
Qed.

Lemma classify_ignores_duplicates_witness :
  same_result
    (fst (process_multiple_properties "CCO" ["TPSA"; "BBB"] Sample.handler))
    (fst (process_multiple_properties "CCO" ["TPSA"; "TPSA"; "BBB"; "TPSA"; "BBB"]
            Sample.handler))
  ∧ snd (process_multiple_properties "CCO" ["TPSA"; "BBB"] Sample.handler)
    = snd (process_multiple_properties "CCO" ["TPSA"; "TPSA"; "BBB"; "TPSA"; "BBB"]
             Sample.handler)
  ∧ ∀ r, fst (process_multiple_properties "CCO" ["TPSA"; "TPSA"; "BBB"; "TPSA"; "BBB"]
                Sample.handler) = Return (RDict r) →
      NoDup (keys (results r)).
Proof.
  apply (classify_ignores_duplicates "CCO" ["TPSA"; "BBB"]
           ["TPSA"; "TPSA"; "BBB"; "TPSA"; "BBB"] Sample.handler).
  intros x. rewrite !elem_of_cons. tauto.
Defined.

(** ** The containment test on the boundary *)

Section BoundaryFacts.
Import Geometry.

Lemma Qltb_spec (x y : Q) : reflect (x < y)%Q (Qltb x y).
Proof.
  unfold Qltb. apply iff_reflect. rewrite negb_true_iff.
  rewrite <- not_true_iff_false, Qle_bool_iff. split.
  - apply Qlt_not_le.
  - apply Qnot_le_lt.
Qed.

Lemma Qle_bool_spec (x y : Q) : reflect (x <= y)%Q (Qle_bool x y).
Proof. apply iff_reflect. symmetry. apply Qle_bool_iff. Qed.

Lemma Qeq_bool_spec (x y : Q) : reflect (x == y)%Q (Qeq_bool x y).
Proof. apply iff_reflect. symmetry. apply Qeq_bool_iff. Qed.

Lemma pt_eqb_spec (p q : Point) :
  reflect (fst p == fst q ∧ snd p == snd q)%Q (pt_eqb p q).
Proof.
  unfold pt_eqb.
  destruct (Qeq_bool_spec (fst p) (fst q)), (Qeq_bool_spec (snd p) (snd q));
    constructor; tauto.
Qed.

Lemma pt_eqb_refl (p : Point) : pt_eqb p p = true.
Proof. destruct (pt_eqb_spec p p) as [|Hn]; [done|]. exfalso. apply Hn. split; reflexivity. Qed.

Lemma pt_eqb_trans (p q r : Point) :
  pt_eqb p q = true → pt_eqb q r = true → pt_eqb p r = true.
Proof.
  destruct (pt_eqb_spec p q) as [[H1 H2]|]; [|done].
  destruct (pt_eqb_spec q r) as [[H3 H4]|]; [|done].
  destruct (pt_eqb_spec p r) as [|Hn]; [done|].
  intros _ _. exfalso. apply Hn. split; etransitivity; eauto.
Qed.

Lemma pt_eqb_sym (p q : Point) : pt_eqb p q = true → pt_eqb q p = true.
Proof.
  destruct (pt_eqb_spec p q) as [[H1 H2]|]; [|done].
  destruct (pt_eqb_spec q p) as [|Hn]; [done|].
  intros _. exfalso. apply Hn. split; by symmetry.
Qed.

Ltac q_case :=
  match goal with
  | |- context [Qltb ?x ?y] => destruct (Qltb_spec x y)
  | |- context [Qle_bool ?x ?y] => destruct (Qle_bool_spec x y)
  | |- context [Qeq_bool ?x ?y] => destruct (Qeq_bool_spec x y)
  | H : context [Qle_bool ?x ?y] |- _ => destruct (Qle_bool_spec x y)
  end.

(** the flag, once set, stays set *)
Lemma countSegment_keeps_flag point c seg :
  isPointOnSegment c = true → isPointOnSegment (countSegment point c seg) = true.
Proof.
  intros Hc. destruct seg as [p1 p2]. unfold countSegment.
  repeat case_match; done.
Qed.

Lemma foldl_keeps_flag point segs c :
  isPointOnSegment c = true →
  isPointOnSegment (foldl (countSegment point) c segs) = true.
Proof.
  revert c. induction segs as [|seg segs IH]; intros c Hc; [done|].
  cbn [foldl]. apply IH. by apply countSegment_keeps_flag.
Qed.

Lemma foldl_sets_flag point segs seg c :
  seg ∈ segs →
  (∀ c', isPointOnSegment (countSegment point c' seg) = true) →
  isPointOnSegment (foldl (countSegment point) c segs) = true.
Proof.
  intros Hin Hseg. revert c.
  induction segs as [|s segs IH]; intros c; [by apply elem_of_nil in Hin|].
  cbn [foldl]. apply elem_of_cons in Hin as [->|Hin].
  - apply foldl_keeps_flag, Hseg.
  - by apply IH.
Qed.

(** a segment whose end vertex is the point reports it *)
Lemma countSegment_end_vertex point a b c :
  pt_eqb point b = true →
  isPointOnSegment (countSegment point c (a, b)) = true.
Proof.
  intros Hb. unfold countSegment. rewrite Hb.
  destruct (Qltb_spec (fst b) (fst point)) as [Hlt|_].
  - destruct (pt_eqb_spec point b) as [[Hx _]|]; [|done].
    rewrite Hx in Hlt. by apply Qlt_irrefl in Hlt.
  - by rewrite andb_false_r.
Qed.

(** a segment the point lies on reports it, unless the point is its
    start vertex *)
Lemma countSegment_on_segment point a b c :
  lies_on point a b → pt_eqb point a = false →
  isPointOnSegment (countSegment point c (a, b)) = true.
Proof.
  intros (Hcol & [Hx1 Hx2] & [Hy1 Hy2]) Ha.
  destruct (pt_eqb point b) eqn:Hb; [by apply countSegment_end_vertex|].
  unfold countSegment. rewrite Hb.
  destruct point as [px py], a as [ax ay], b as [bx by']. cbn [fst snd] in *.
  unfold orientationIndex. cbn [fst snd].
  apply Qeq_alt in Hcol. rewrite Hcol.
  destruct (pt_eqb_spec (px, py) (ax, ay)) as [|Hna]; [done|].
  destruct (pt_eqb_spec (px, py) (bx, by')) as [|Hnb]; [done|].
  apply Qeq_alt in Hcol. cbn [fst snd] in *.
  unfold qmin, qmax in *.
  repeat (q_case; cbn [andb orb]; try done; try (exfalso; lra)).
  all: exfalso; first [apply Hna; split; nra | apply Hnb; split; nra].
Qed.

(** in a list of consecutive pairs, a start vertex is the head of the
    ring or the end vertex of a pair *)
Lemma pairs_start ring a b :
  (a, b) ∈ pairs ring → head ring = Some a ∨ ∃ c, (c, a) ∈ pairs ring.
Proof.
  induction ring as [|p1 [|p2 rest] IH]; cbn [pairs].
  - by intros ?%elem_of_nil.
  - by intros ?%elem_of_nil.
  - intros [[= -> ->]|Hin]%elem_of_cons; [by left|].
    right. destruct (IH Hin) as [[= ->]|[c Hc]].
    + exists p1. left.
    + exists c. by right.
Qed.

(** the last vertex of a ring with a pair is the end vertex of a pair *)
Lemma pairs_last ring l :
  pairs ring ≠ [] → last ring = Some l → ∃ c, (c, l) ∈ pairs ring.
Proof.
  induction ring as [|p1 [|p2 rest] IH]; cbn [pairs]; [done | done |].
  intros _ Hl. destruct rest as [|p3 rest'].
  - injection Hl as <-. exists p1. left.
  - destruct IH as [c Hc]; [done | done |]. exists c. by right.
Qed.

(** the ring of a polygon ends where it starts *)
Lemma close_ring_closed coords first :
  head (close_ring coords) = Some first →
  ∃ l, last (close_ring coords) = Some l ∧ pt_eqb l first = true.
Proof.
  unfold close_ring. destruct coords as [|p0 rest]; [done|].
  destruct (last (p0 :: rest)) as [l|] eqn:Hl.
  - destruct (pt_eqb l p0) eqn:Heq.
    + intros [= <-]. by exists l.
    + intros [= <-]. exists p0. split; [apply last_snoc | apply pt_eqb_refl].
  - intros [= <-]. by rewrite last_cons in Hl; destruct (last rest).
Qed.

(** every start vertex of a segment of a polygon is, up to equality of
    coordinates, the end vertex of one *)
Lemma segments_start_is_end polygon a b :
  (a, b) ∈ segments polygon →
  ∃ c a', (c, a') ∈ segments polygon ∧ pt_eqb a' a = true.
Proof.
  unfold segments. intros Hin.
  destruct (pairs_start _ _ _ Hin) as [Hhead|[c Hc]].
  - destruct (close_ring_closed _ _ Hhead) as (l & Hl & Heq).
    destruct (pairs_last (close_ring polygon) l) as [c Hc]; [|done|].
    + intros Hnil. rewrite Hnil in Hin. by apply elem_of_nil in Hin.
    + by exists c, l.
  - exists c, a. split; [done | apply pt_eqb_refl].
Qed.

Lemma on_edge_flag point polygon :
  on_edge point polygon →
  isPointOnSegment
    (foldl (countSegment point) (mkCounter false 0) (segments polygon)) = true.
Proof.
  intros (a & b & Hin & Hon).
  destruct (pt_eqb point a) eqn:Ha.
  - destruct (segments_start_is_end _ _ _ Hin) as (c & a' & Hin' & Heq).
    apply (foldl_sets_flag _ _ (c, a')); [done|].
    intros c'. apply countSegment_end_vertex.
    apply pt_eqb_sym in Heq. by eapply pt_eqb_trans.
  - apply (foldl_sets_flag _ _ (a, b)); [done|].
    intros c'. by apply countSegment_on_segment.
Qed.
End BoundaryFacts.

(** C5, as stated, fails: the point (79, 1.2) lies on the right edge of the
    rectangle with corners (0, 0.4) and (79, 6), and the containment test
    the handler calls answers false for it. *)
Lemma edge_point_not_within :
  Geometry.on_edge (79, 1.2)%Q Sample.BBB_box
  ∧ shapely_within (79, 1.2)%Q (Some Sample.BBB_box) = Return false.
Proof.
  split; [|reflexivity].
  exists (79, 0.4)%Q, (79, 6)%Q. split.
  - unfold Geometry.segments. cbn. set_solver.
  - unfold Geometry.lies_on. split_and!; by vm_compute.
Qed.

(** C5 (amended).  The containment test the handler calls is
    boundary-exclusive: for every polygon and every point lying exactly on
    one of its edges, [within] answers false (GEOS locates the point on the
    BOUNDARY); the inclusive test [covers] is the one that answers true. *)
Theorem within_excludes_boundary (polygon : Polygon) (point : Point) :
  Geometry.on_edge point polygon →
  shapely_within point (Some polygon) = Return false
  ∧ Geometry.locatePointInRing point polygon = Geometry.BOUNDARY
  ∧ Geometry.polygon_covers polygon point = true.
Proof.
  intros Hon. apply on_edge_flag in Hon.
  unfold shapely_within, Geometry.point_within, Geometry.polygon_covers,
    Geometry.locatePointInRing.
  by rewrite Hon.
Qed.

Lemma within_excludes_boundary_witness :
  shapely_within (5, 6)%Q (Some Sample.BBB_box) = Return false
  ∧ Geometry.locatePointInRing (5, 6)%Q Sample.BBB_box = Geometry.BOUNDARY
  ∧ Geometry.polygon_covers Sample.BBB_box (5, 6)%Q = true.
Proof.
  apply (within_excludes_boundary Sample.BBB_box (5, 6)%Q).
  exists (79, 6)%Q, (0, 6)%Q. split.
  - unfold Geometry.segments. cbn. set_solver.
  - unfold Geometry.lies_on. split_and!; by vm_compute.
Defined.

(** On the sample data the point of benzene, (0, 1.69), lies on the left
    edge of the BBB rectangle, and the engine reports BBB as 0. *)
Example edge_point_classified_outside :
  Geometry.on_edge (0, 1.69)%Q Sample.BBB_box
  ∧ ∃ r, process_multiple_properties "c1ccccc1" ["BBB"] Sample.handler
         = (Return (RDict r), Sample.handler)
      ∧ pr_results <$> dict_get "BBB" (results r) = Some 0%Q.
Proof.
  split.
  - exists (0, 6)%Q, (0, 0.4)%Q. split.
    + unfold Geometry.segments. cbn. set_solver.
    + unfold Geometry.lies_on. split_and!; by vm_compute.
  - eexists. split; [vm_compute; reflexivity | reflexivity].
Qed.


(** * Further properties of the handler *)

Section HandlerMore.
Context {E : Externals}.

Lemma process_world smi property_list w :
  snd (process_multiple_properties smi property_list w)
  = printed (snd (outcome smi property_list (models w))) w.
Proof. by rewrite process_spec. Qed.

(** a call that returns has printed nothing *)
Lemma process_return_world smi property_list w v w' :
  process_multiple_properties smi property_list w = (Return v, w') → w' = w.
Proof.
  rewrite process_spec. unfold outcome. intros [= Hv <-].
  case_bool_decide; [by rewrite printed_nil|].
  destruct (MolFromSmiles smi); [|done]. cbn zeta.
  destruct try_outcome; by rewrite printed_nil.
Qed.

(** a call raises exactly on a non-empty input that does not parse *)
Lemma process_raise_inv smi property_list w e w' :
  process_multiple_properties smi property_list w = (Raise e, w') →
  smi ≠ "" ∧ MolFromSmiles smi = None ∧ w' = printed [skipping_line smi] w
  ∧ ∃ msg, e = ArgumentError msg.
Proof.
  rewrite process_spec. unfold outcome. intros H.
  case_bool_decide; [done|].
  destruct (MolFromSmiles smi); cbn zeta in H.
  - by destruct try_outcome.
  - cbn [fst snd] in H. injection H as <- <-. split_and!; try done. by eexists.
Qed.

Lemma batch_loop_acc smiles_list property_list res_ls w :
  batch_loop smiles_list property_list res_ls w
  = match batch_loop smiles_list property_list [] w with
    | (Return res, w') => (Return (res_ls ++ res), w')
    | (Raise e, w') => (Raise e, w')
    end.
Proof.
  revert res_ls w. induction smiles_list as [|smi rest IH]; intros res_ls w.
  - cbn. by rewrite app_nil_r.
  - rewrite !batch_loop_cons.
    destruct (process_multiple_properties smi property_list w) as [[e|one] w1];
      [done|].
    rewrite (IH (res_ls ++ [one])), (IH ([] ++ [one])).
    destruct (batch_loop rest property_list [] w1) as [[e|res] w2]; [done|].
    by rewrite <- app_assoc.
Qed.

Lemma batch_loop_app l1 l2 property_list res_ls w :
  batch_loop (l1 ++ l2) property_list res_ls w
  = match batch_loop l1 property_list res_ls w with
    | (Return res, w') => batch_loop l2 property_list res w'
    | (Raise e, w') => (Raise e, w')
    end.
Proof.
  revert res_ls w. induction l1 as [|smi rest IH]; intros res_ls w; [done|].
  rewrite <- app_comm_cons, !batch_loop_cons.
  destruct (process_multiple_properties smi property_list w) as [[e|one] w1];
    [done|].
  apply IH.
Qed.

Lemma batch_abort before after smi property_list w :
  (∀ s, s ∈ before → s ≠ "" → is_Some (MolFromSmiles s)) →
  smi ≠ "" → MolFromSmiles smi = None →
  process_multiple_properties_batch (before ++ smi :: after) property_list w
  = (Raise (ArgumentError
       "Python argument types in rdkit.Chem.rdMolDescriptors.CalcTPSA(NoneType) did not match C++ signature"),
     printed [skipping_line smi] w).
Proof.
  intros Hbefore Hne Hnone. unfold process_multiple_properties_batch.
  rewrite batch_loop_app.
  destruct (batch_loop_spec before property_list [] w Hbefore) as (res & -> & _).
  by rewrite batch_loop_cons, unparseable_raises.
Qed.

Lemma batch_loop_world smiles_list property_list res_ls w :
  models (snd (batch_loop smiles_list property_list res_ls w)) = models w
  ∧ extends (stdout (snd (batch_loop smiles_list property_list res_ls w)))
            (stdout w)
  ∧ ∀ res, fst (batch_loop smiles_list property_list res_ls w) = Return res →
      snd (batch_loop smiles_list property_list res_ls w) = w.
Proof.
  revert res_ls w. induction smiles_list as [|smi rest IH]; intros res_ls w.
  - cbn. split_and!; [done | exists []; by rewrite app_nil_r | done].
  - rewrite batch_loop_cons.
    destruct (process_multiple_properties smi property_list w) as [[e|one] w1] eqn:Hp.
    + apply process_raise_inv in Hp as (_ & _ & -> & _). cbn.
      split_and!; [done | by eexists | done].
    + apply process_return_world in Hp as ->. apply IH.
Qed.
End HandlerMore.

(** ** Loading the models *)

(** X1.  Whatever [self.models] held before, [_load_models] leaves the
    BBB and GIA polygons under their names, keeps the value of every other
    key, drops no key and prints nothing. *)
Theorem load_models_installs `{E : Externals} (w : World) :
  let w' := snd (_load_models w) in
  fst (_load_models w) = Return tt
  ∧ dict_get "BBB" (models w') = Some (Some BoiledEggBBB_ml_tensor)
  ∧ dict_get "GIA" (models w') = Some (Some BoiledEggGIA_ml_tensor)
  ∧ (∀ k, k ≠ "BBB" → k ≠ "GIA" → dict_get k (models w') = dict_get k (models w))
  ∧ (∀ k, k ∈ keys (models w) → k ∈ keys (models w'))
  ∧ stdout w' = stdout w.
Proof.
  assert (Hload : _load_models w
                  = (Return tt,
                     mkWorld (dict_set "GIA" (Some BoiledEggGIA_ml_tensor)
                                (dict_set "BBB" (Some BoiledEggBBB_ml_tensor)
                                   (models w)))
                       (stdout w))) by reflexivity.
  cbn zeta. rewrite Hload. cbn [fst snd models stdout].
  split_and!; try done.
  - by rewrite dict_get_set_ne, dict_get_set_eq.
  - by rewrite dict_get_set_eq.
  - intros k H1 H2. by rewrite !dict_get_set_ne.
  - intros k Hk. rewrite <- !dict_get_Some_keys in *.
    rewrite !dict_get_set. by repeat case_decide.
Qed.

(** ** The batch as a whole *)

(** X2.  One input that does not parse aborts the batch: when the inputs
    before it are processed without failure, the batch raises the
    descriptor call's exception, the entries already computed are lost,
    the inputs after it are never looked at, and the only trace is the
    one printed line. *)
Theorem batch_aborts_on_unparseable `{E : Externals} (before after : list string)
    (smi : string) (property_list : list string) (w : World) :
  (∀ s, s ∈ before → s ≠ "" → is_Some (MolFromSmiles s)) →
  smi ≠ "" → MolFromSmiles smi = None →
  process_multiple_properties_batch (before ++ smi :: after) property_list w
  = (Raise (ArgumentError
       "Python argument types in rdkit.Chem.rdMolDescriptors.CalcTPSA(NoneType) did not match C++ signature"),
     printed [skipping_line smi] w).
Proof. apply batch_abort. Qed.

Lemma batch_aborts_on_unparseable_witness :
  process_multiple_properties_batch (["CCO"; ""] ++ "C1CC" :: ["c1ccccc1"; "XYZ"])
    ["TPSA"] Sample.handler
  = (Raise (ArgumentError
       "Python argument types in rdkit.Chem.rdMolDescriptors.CalcTPSA(NoneType) did not match C++ signature"),
     printed [skipping_line "C1CC"] Sample.handler).
Proof.
  apply (batch_aborts_on_unparseable ["CCO"; ""] ["c1ccccc1"; "XYZ"] "C1CC"
           ["TPSA"] Sample.handler); [|done|reflexivity].
  intros s Hs Hne.
  repeat (apply elem_of_cons in Hs as [->|Hs]); try done; try by eexists.
  by apply elem_of_nil in Hs.
Defined.

(** X3.  Processing a concatenated list is processing the first part and
    then, from the handler it leaves, the second: the results are
    concatenated, and a failure in either part is the failure of the
    whole. *)
Theorem batch_of_concatenation `{E : Externals} (l1 l2 : list string)
    (property_list : list string) (w : World) :
  process_multiple_properties_batch (l1 ++ l2) property_list w
  = match process_multiple_properties_batch l1 property_list w with
    | (Return res1, w1) =>
        match process_multiple_properties_batch l2 property_list w1 with
        | (Return res2, w2) => (Return (res1 ++ res2), w2)
        | (Raise e, w2) => (Raise e, w2)
        end
    | (Raise e, w1) => (Raise e, w1)
    end.
Proof.
  unfold process_multiple_properties_batch. rewrite batch_loop_app.
  destruct (batch_loop l1 property_list [] w) as [[e|res1] w1]; [done|].
  apply batch_loop_acc.
Qed.

(** X4.  Neither a single call nor a batch ever changes [self.models], and
    the standard output is only ever extended; when the value is returned
    rather than raised, nothing at all has changed. *)
Theorem engine_preserves_handler `{E : Externals} (smi : string)
    (smiles_list : list string) (property_list : list string) (w : World) :
  let one := process_multiple_properties smi property_list w in
  let all := process_multiple_properties_batch smiles_list property_list w in
  models (snd one) = models w ∧ extends (stdout (snd one)) (stdout w)
  ∧ (∀ v, fst one = Return v → snd one = w)
  ∧ models (snd all) = models w ∧ extends (stdout (snd all)) (stdout w)
  ∧ (∀ res, fst all = Return res → snd all = w).
Proof.
  cbn zeta.
  destruct (batch_loop_world smiles_list property_list [] w) as (Hm & Hs & Hr).
  split_and!; try done.
  - by rewrite process_world.
  - rewrite process_world. by eexists.
  - intros v Hv.
    destruct (process_multiple_properties smi property_list w) as [r w'] eqn:Hp.
    cbn in *. subst r. by apply process_return_world in Hp.
Qed.

(** ** The results of one call *)

Section ResultsMore.
Context {E : Externals}.

Lemma filter_not_in_snoc (ks : list string) (x : string) (l : list string) :
  filter (fun y => y ∉ ks ++ [x]) l
  = filter (fun y => y ∉ ks) (filter (fun y => y ≠ x) l).
Proof.
  rewrite list_filter_filter. apply list_filter_iff. intros y.
  rewrite elem_of_app, list_elem_of_singleton. tauto.
Qed.

Lemma filter_not_in_absorb (ks : list string) (x : string) (l : list string) :
  x ∈ ks →
  filter (fun y => y ∉ ks) (filter (fun y => y ≠ x) l)
  = filter (fun y => y ∉ ks) l.
Proof.
  intros Hx. rewrite list_filter_filter. apply list_filter_iff. intros y.
  split; [tauto|]. intros Hy. split; [done|]. by intros ->.
Qed.

Lemma filter_not_in_nil (l : list string) :
  filter (fun y => y ∉ ([] : list string)) l = l.
Proof.
  induction l as [|x l IH]; [done|].
  rewrite filter_cons_True by apply not_elem_of_nil. by rewrite IH.
Qed.

Lemma keys_assign_all {V} (f : string → V) (d : pydict V) (props : list string) :
  keys (assign_all f d props)
  = keys d ++ filter (fun y => y ∉ keys d) (first_occurrences props).
Proof.
  unfold assign_all. revert d. induction props as [|x rest IH]; intros d.
  - cbn. by rewrite app_nil_r.
  - cbn [foldl first_occurrences]. rewrite IH, keys_dict_set.
    case_decide as Hx.
    + rewrite filter_cons_False by tauto.
      by rewrite filter_not_in_absorb.
    + rewrite filter_cons_True by done.
      by rewrite filter_not_in_snoc, <- app_assoc.
Qed.

Lemma outcome_RDict smi property_list ms r :
  fst (outcome smi property_list ms) = Return (RDict r) →
  ∃ m, smi ≠ "" ∧ MolFromSmiles smi = Some m
    ∧ r = mkCompoundResult smi "success"
            (assign_all
               (entry ms (round (CalcTPSA m true) 2, round (CalcLogP m) 2)
                  (round (CalcTPSA m true) 2) (round (CalcLogP m) 2))
               [] (valid_props property_list)) None.
Proof.
  unfold outcome. case_bool_decide; [done|].
  destruct (MolFromSmiles smi) as [m|]; [|done]. cbn zeta.
  destruct try_outcome as [e|v] eqn:Ht; [done|].
  apply try_outcome_shape in Ht. subst v. intros [= <-]. by exists m.
Qed.

Lemma valid_props_idemp property_list :
  valid_props (valid_props property_list) = valid_props property_list.
Proof.
  unfold valid_props. rewrite list_filter_filter. apply list_filter_iff. tauto.
Qed.

Lemma outcome_valid_props smi P P' ms :
  valid_props P = valid_props P' → outcome smi P ms = outcome smi P' ms.
Proof. intros H. unfold outcome. by rewrite H. Qed.
End ResultsMore.

(** X5.  In a returned record the results are keyed in the order in which
    the supported properties were first requested. *)
Theorem results_in_request_order `{E : Externals} (smi : string)
    (property_list : list string) (w : World) (r : CompoundResult) :
  fst (process_multiple_properties smi property_list w) = Return (RDict r) →
  keys (results r)
  = first_occurrences (filter (fun p => p ∈ AVAILABLE_PROPERTIES) property_list).
Proof.
  rewrite process_spec. cbn [fst]. intros (m & _ & _ & ->)%outcome_RDict.
  cbn [results]. rewrite keys_assign_all. cbn [keys fmap list_fmap app].
  apply filter_not_in_nil.
Qed.

Lemma results_in_request_order_witness :
  ∃ r, fst (process_multiple_properties "CCO"
              ["WLogP"; "MW"; "BBB"; "WLogP"; "TPSA"; "BBB"] Sample.handler)
       = Return (RDict r)
    ∧ keys (results r) = ["WLogP"; "BBB"; "TPSA"].
Proof.
  eexists. split; [vm_compute; reflexivity|].
  apply (results_in_request_order "CCO"
           ["WLogP"; "MW"; "BBB"; "WLogP"; "TPSA"; "BBB"] Sample.handler).
  vm_compute. reflexivity.
Defined.

(** X6.  A request that names neither BBB nor GIA never consults the models
    or the containment test: for an input that parses it succeeds on any
    handler, even one whose models were never loaded, and its values are
    the two rounded descriptors. *)
Theorem descriptor_request_ignores_models `{E : Externals} (smi : string)
    (property_list : list string) (w : World) (m : Mol) :
  smi ≠ "" → MolFromSmiles smi = Some m →
  "BBB" ∉ property_list → "GIA" ∉ property_list →
  ∃ r, process_multiple_properties smi property_list w = (Return (RDict r), w)
    ∧ status r = "success"
    ∧ ∀ k pr, dict_get k (results r) = Some pr →
        (k = "TPSA" ∧ pr_results pr = round (CalcTPSA m true) 2)
        ∨ (k = "WLogP" ∧ pr_results pr = round (CalcLogP m) 2).
Proof.
  intros Hne Hm HB HG. rewrite (process_parsed _ _ _ m) by done.
  unfold try_outcome, failure.
  rewrite !bool_decide_eq_false_2
    by (rewrite elem_of_valid_props; tauto).
  eexists. split_and!; try done.
  intros k pr. cbn [results]. rewrite dict_get_assign_all.
  case_decide as Hk; [|done]. intros [= <-].
  apply elem_of_valid_props in Hk as [Hav Hin].
  destruct (supported_cases k Hav) as [-> | [-> | [-> | ->]]]; try done;
    [left | right]; done.
Qed.

Lemma descriptor_request_ignores_models_witness :
  ∃ r, process_multiple_properties "CCO" ["TPSA"; "MW"; "WLogP"] (mkWorld [] [])
       = (Return (RDict r), mkWorld [] [])
    ∧ status r = "success"
    ∧ ∀ k pr, dict_get k (results r) = Some pr →
        (k = "TPSA" ∧ pr_results pr = 20.23%Q)
        ∨ (k = "WLogP" ∧ pr_results pr = 0%Q).
Proof.
  apply (descriptor_request_ignores_models (E := Sample.externals)
           "CCO" ["TPSA"; "MW"; "WLogP"] (mkWorld [] [])
           (Sample.mkDescriptors 20.23 20.23 (-0.0014)));
    [done | reflexivity | |];
    rewrite !elem_of_cons, elem_of_nil; intros H; decompose [or] H; done.
Defined.

(** X7.  Names outside the supported four have no effect at all: two
    requests whose supported names agree, in order and repetition, give
    the same outcome and leave the same handler, so a request can be
    replaced by its supported names. *)
Theorem unsupported_names_have_no_effect `{E : Externals} (smi : string)
    (P P' : list string) (w : World) :
  filter (fun p => p ∈ AVAILABLE_PROPERTIES) P
  = filter (fun p => p ∈ AVAILABLE_PROPERTIES) P' →
  process_multiple_properties smi P w = process_multiple_properties smi P' w
  ∧ process_multiple_properties smi P w
    = process_multiple_properties smi
        (filter (fun p => p ∈ AVAILABLE_PROPERTIES) P) w.
Proof.
  intros H. rewrite !process_spec. split.
  - by rewrite (outcome_valid_props smi P P').
  - rewrite (outcome_valid_props smi P (valid_props P)); [done|].
    symmetry. apply valid_props_idemp.
Qed.

Lemma unsupported_names_have_no_effect_witness :
  process_multiple_properties "CCO" ["MW"; "GIA"; "logS"; "TPSA"] Sample.handler
  = process_multiple_properties "CCO" ["GIA"; "TPSA"; "HIA"] Sample.handler.
Proof.
  apply (unsupported_names_have_no_effect "CCO" ["MW"; "GIA"; "logS"; "TPSA"]
           ["GIA"; "TPSA"; "HIA"] Sample.handler).
  reflexivity.
Defined.

(** X8.  A model missing from [self.models] is reported as data: for an
    input that parses, a requested BBB or GIA whose key is absent makes the
    call return the one-element list with the error record, whose message
    is the quoted key; BBB is looked up first, so GIA's absence shows only
    when BBB is not requested or its test answers. *)
Theorem missing_model_is_captured `{E : Externals} (smi : string)
    (property_list : list string) (w : World) (m : Mol) :
  smi ≠ "" → MolFromSmiles smi = Some m →
  let tpsa := round (CalcTPSA m true) 2 in
  let wlogp := round (CalcLogP m) 2 in
  ("BBB" ∈ property_list → dict_get "BBB" (models w) = None →
     process_multiple_properties smi property_list w
     = (Return (RList [mkCompoundResult smi "error" [] (Some "'BBB'")]), w))
  ∧ ("GIA" ∈ property_list → dict_get "GIA" (models w) = None →
     ("BBB" ∈ property_list →
        ∃ polygon b, dict_get "BBB" (models w) = Some polygon
                     ∧ within (tpsa, wlogp) polygon = Return b) →
     process_multiple_properties smi property_list w
     = (Return (RList [mkCompoundResult smi "error" [] (Some "'GIA'")]), w)).
Proof.
  intros Hne Hm tpsa wlogp. rewrite (process_parsed _ _ _ m) by done.
  fold tpsa wlogp. unfold try_outcome, failure, evaluate, dict_index.
  assert (Hsup : ∀ name, name ∈ AVAILABLE_PROPERTIES → name ∈ property_list →
                 bool_decide (name ∈ valid_props property_list) = true).
  { intros name ??. apply bool_decide_eq_true_2. by apply elem_of_valid_props. }
  split.
  - intros HB Hmiss. rewrite Hsup, Hmiss; [done | set_solver | done].
  - intros HG Hmiss HBBB. rewrite Hmiss.
    rewrite (Hsup "GIA"); [| set_solver | done].
    case_bool_decide as HB; [|done].
    apply elem_of_valid_props in HB as [_ HB].
    destruct (HBBB HB) as (polygon & b & -> & ->). done.
Qed.

Lemma missing_model_is_captured_witness :
  process_multiple_properties "CCO" ["TPSA"; "GIA"]
    (mkWorld [("BBB", Some Sample.BBB_box)] [])
  = (Return (RList [mkCompoundResult "CCO" "error" [] (Some "'GIA'")]),
     mkWorld [("BBB", Some Sample.BBB_box)] []).
Proof.
  apply (missing_model_is_captured (E := Sample.externals) "CCO" ["TPSA"; "GIA"]
           (mkWorld [("BBB", Some Sample.BBB_box)] [])
           (Sample.mkDescriptors 20.23 20.23 (-0.0014)));
    [done | reflexivity | set_solver | reflexivity |].
  rewrite !elem_of_cons, elem_of_nil. intros H; decompose [or] H; done.
Defined.

(** * Further properties of the service routes *)

(** ** Stripping *)

Lemma string_app_cons c (a b : string) :
  (String c a ++ b)%string = String c (a ++ b)%string.
Proof. reflexivity. Qed.

Lemma string_app_nil (b : string) : ("" ++ b)%string = b.
Proof. reflexivity. Qed.

Lemma lstrip_blank s : blank s = true → lstrip s = "".
Proof.
  induction s as [|c s IH]; [done|]. cbn [blank lstrip].
  intros [Hc Hs]%andb_true_iff. rewrite Hc. by apply IH.
Qed.

Lemma rstrip_blank s : blank s = true → rstrip s = "".
Proof.
  induction s as [|c s IH]; [done|]. cbn [blank rstrip].
  intros [Hc Hs]%andb_true_iff. by rewrite IH, Hc.
Qed.

Lemma rstrip_empty_blank s : rstrip s = "" → blank s = true.
Proof.
  induction s as [|c s IH]; [done|]. cbn [blank rstrip].
  destruct (rstrip s) eqn:Hr; [|done].
  destruct (isspace c); [|done]. intros _. by rewrite IH.
Qed.

Lemma lstrip_blank_inv s : blank (lstrip s) = true → blank s = true.
Proof.
  induction s as [|c s IH]; [done|]. cbn [blank lstrip].
  destruct (isspace c) eqn:Hc; [done|]. cbn [blank]. by rewrite Hc.
Qed.

Lemma strip_empty_blank s : strip s = "" ↔ blank s = true.
Proof.
  split; [|apply blank_strip].
  unfold strip. intros H. by apply lstrip_blank_inv, rstrip_empty_blank.
Qed.

(** the head of a stripped string is no whitespace *)
Lemma lstrip_head s :
  lstrip s = "" ∨ ∃ c r, lstrip s = String c r ∧ isspace c = false.
Proof.
  induction s as [|c s IH]; [by left|]. cbn [lstrip].
  destruct (isspace c) eqn:Hc; [done|]. right. by exists c, s.
Qed.

Lemma rstrip_cons c s :
  isspace c = false → ∃ r, rstrip (String c s) = String c r.
Proof.
  intros Hc. cbn [rstrip]. destruct (rstrip s); rewrite ?Hc; by eexists.
Qed.

Lemma rstrip_idemp s : rstrip (rstrip s) = rstrip s.
Proof.
  induction s as [|c s IH]; [done|]. cbn [rstrip].
  destruct (rstrip s) as [|c' r] eqn:Hr.
  - destruct (isspace c) eqn:Hc; [done|]. cbn [rstrip]. by rewrite Hc.
  - remember (String c' r) as t. cbn [rstrip]. rewrite IH. by subst t.
Qed.

Lemma lstrip_app_blank pad s : blank pad = true → lstrip (pad ++ s) = lstrip s.
Proof.
  induction pad as [|c pad IH]; [done|]. cbn [blank].
  intros [Hc Hp]%andb_true_iff. rewrite ?string_app_cons; cbn [lstrip]. rewrite Hc. by apply IH.
Qed.

Lemma rstrip_app_blank s pad : blank pad = true → rstrip (s ++ pad) = rstrip s.
Proof.
  intros Hp. induction s as [|c s IH]; [by apply rstrip_blank|].
  rewrite ?string_app_cons; cbn [rstrip]. by rewrite IH.
Qed.

Lemma lstrip_app_head c r s :
  isspace c = false → lstrip (String c r ++ s) = (String c r ++ s)%string.
Proof. intros Hc. rewrite ?string_app_cons; cbn [lstrip]. by rewrite Hc. Qed.

Lemma lstrip_split s : ∃ pad, blank pad = true ∧ s = (pad ++ lstrip s)%string.
Proof.
  induction s as [|c s (pad & Hp & Hs)]; [by exists ""|]. cbn [lstrip].
  destruct (isspace c) eqn:Hc.
  - exists (String c pad). rewrite ?string_app_cons; cbn [blank]. rewrite Hc, Hp.
    split; [done|]. by rewrite <- Hs.
  - by exists "".
Qed.

Lemma strip_idemp s : strip (strip s) = strip s.
Proof.
  unfold strip. destruct (lstrip_head s) as [->|(c & r & -> & Hc)]; [done|].
  destruct (rstrip_cons c r Hc) as [r' Hr]. rewrite Hr.
  cbn [lstrip]. rewrite Hc, <- Hr. apply rstrip_idemp.
Qed.

Lemma string_app_assoc (a b c : string) : ((a ++ b) ++ c = a ++ (b ++ c))%string.
Proof. induction a as [|x a IH]; [done|]. rewrite ?string_app_cons. by rewrite IH. Qed.

Lemma blank_app a b : blank (a ++ b) = blank a && blank b.
Proof.
  induction a as [|c a IH]; [done|]. rewrite ?string_app_cons; cbn [blank].
  rewrite IH. by rewrite andb_assoc.
Qed.

(** surrounding whitespace does not change what is left after stripping *)
Lemma strip_padding pad1 pad2 s :
  blank pad1 = true → blank pad2 = true →
  strip (pad1 ++ s ++ pad2) = strip s.
Proof.
  intros H1 H2. unfold strip. rewrite lstrip_app_blank by done.
  destruct (lstrip_split s) as (pad & Hpad & Hs).
  destruct (lstrip_head s) as [Hl|(c & r & Hl & Hc)].
  - rewrite Hl in *. rewrite lstrip_blank; [done|].
    rewrite blank_app, H2, andb_true_r.
    apply lstrip_blank_inv. by rewrite Hl.
  - rewrite Hs at 1. rewrite string_app_assoc, lstrip_app_blank by done.
    rewrite Hl, lstrip_app_head by done. by apply rstrip_app_blank.
Qed.

(** ** [POST /smi] *)

Section PredictMore.
Context {E : Externals}.

Lemma guard_blank s :
  bool_decide (s = "") || bool_decide (strip s = "") = blank s.
Proof.
  destruct (blank s) eqn:Hb.
  - apply blank_strip in Hb. rewrite (bool_decide_eq_true_2 _ Hb).
    apply orb_true_r.
  - apply orb_false_iff. split; apply bool_decide_eq_false_2.
    + by intros ->.
    + intros Hs%strip_empty_blank. congruence.
Qed.

(** the route, outcome by outcome *)
Lemma predict_property_spec request w :
  predict_property request w
  = if blank (req_smiles request)
    then (Raise (HTTPException 400 (Some "SMILES string cannot be empty")), w)
    else
      let smi := strip (req_smiles request) in
      match MolFromSmiles smi with
      | None =>
          (Raise (ArgumentError
             "Python argument types in rdkit.Chem.rdMolDescriptors.CalcTPSA(NoneType) did not match C++ signature"),
           printed [skipping_line smi] w)
      | Some m =>
          let tpsa := round (CalcTPSA m true) 2 in
          let wlogp := round (CalcLogP m) 2 in
          match try_outcome smi (valid_props (prop_list_of request))
                  tpsa wlogp (tpsa, wlogp) (models w) with
          | Return v =>
              (Return (mkCompoundResult smi "success"
                 (assign_all (entry (models w) (tpsa, wlogp) tpsa wlogp) []
                    (valid_props (prop_list_of request))) None), w)
          | Raise e =>
              (Raise (AttributeError "'list' object has no attribute 'get'"), w)
          end
      end.
Proof.
  unfold predict_property. rewrite guard_blank.
  destruct (blank (req_smiles request)) eqn:Hb; [done|].
  assert (Hne : strip (req_smiles request) ≠ "").
  { intros Hs%strip_empty_blank. congruence. }
  cbn zeta. rewrite bind_eq.
  destruct (MolFromSmiles (strip (req_smiles request))) as [m|] eqn:Hm.
  - rewrite (process_parsed _ _ _ m) by done.
    destruct try_outcome as [e|v] eqn:Ht; [done|].
    apply try_outcome_shape in Ht. by subst v.
  - by rewrite unparseable_raises.
Qed.
End PredictMore.

(** X9.  On a request of ASCII text the route fails in exactly three
    ways: a blank SMILES is refused with HTTP 400 and nothing else happens;
    a SMILES that does not parse lets the descriptor call's [ArgumentError]
    through after printing the warning; a failure captured by the engine
    surfaces as [AttributeError].  The HTTP 500 that is to report a
    status=error result is never raised. *)
Theorem predict_property_failures `{E : Externals} (request : SMILESRequest)
    (w w' : World) (e : Exn) :
  is_ascii (req_smiles request) = true →
  predict_property request w = (Raise e, w') →
  let smi := strip (req_smiles request) in
  (blank (req_smiles request) = true ∧ w' = w
   ∧ e = HTTPException 400 (Some "SMILES string cannot be empty"))
  ∨ (blank (req_smiles request) = false ∧ MolFromSmiles smi = None
     ∧ w' = printed [skipping_line smi] w ∧ ∃ msg, e = ArgumentError msg)
  ∨ (blank (req_smiles request) = false ∧ is_Some (MolFromSmiles smi)
     ∧ w' = w ∧ e = AttributeError "'list' object has no attribute 'get'"
     ∧ ∃ e0, process_multiple_properties smi (prop_list_of request) w
             = (Return (RList [mkCompoundResult smi "error" [] (Some (str e0))]), w)).
Proof.
  intros _. rewrite predict_property_spec. cbn zeta.
  destruct (blank (req_smiles request)) eqn:Hb.
  - intros [= <- <-]. by left.
  - assert (Hne : strip (req_smiles request) ≠ "").
    { intros Hs%strip_empty_blank. congruence. }
    destruct (MolFromSmiles (strip (req_smiles request))) as [m|] eqn:Hm.
    + destruct try_outcome as [e0|v] eqn:Ht; [|done].
      intros [= <- <-]. right. right. split_and!; try done.
      exists e0. rewrite (process_parsed _ _ _ m) by done. by rewrite Ht.
    + intros [= <- <-]. right. left. split_and!; try done. by eexists.
Qed.

Lemma predict_property_failures_witness :
  (blank "C1CC" = true ∧ printed [skipping_line "C1CC"] Sample.handler = Sample.handler
   ∧ ArgumentError
       "Python argument types in rdkit.Chem.rdMolDescriptors.CalcTPSA(NoneType) did not match C++ signature"
     = HTTPException 400 (Some "SMILES string cannot be empty"))
  ∨ (blank "C1CC" = false ∧ MolFromSmiles "C1CC" = None
     ∧ printed [skipping_line "C1CC"] Sample.handler
       = printed [skipping_line "C1CC"] Sample.handler
     ∧ ∃ msg, ArgumentError
       "Python argument types in rdkit.Chem.rdMolDescriptors.CalcTPSA(NoneType) did not match C++ signature"
       = ArgumentError msg)
  ∨ (blank "C1CC" = false ∧ is_Some (MolFromSmiles "C1CC")
     ∧ printed [skipping_line "C1CC"] Sample.handler = Sample.handler
     ∧ ArgumentError
         "Python argument types in rdkit.Chem.rdMolDescriptors.CalcTPSA(NoneType) did not match C++ signature"
       = AttributeError "'list' object has no attribute 'get'"
     ∧ ∃ e0, process_multiple_properties "C1CC" AVAILABLE_PROPERTIES Sample.handler
             = (Return (RList [mkCompoundResult "C1CC" "error" [] (Some (str e0))]),
                Sample.handler)).
Proof.
  apply (predict_property_failures (mkSMILESRequest "C1CC" None) Sample.handler);
    reflexivity.
Defined.

(** X10.  When the route answers a request of ASCII text, nothing was
    printed or changed, and the response is the success record for the
    stripped SMILES: no error, its
    results keyed by the supported requested names in order of first
    request, all four when the request names none. *)
Theorem predict_property_response `{E : Externals} (request : SMILESRequest)
    (w w' : World) (r : CompoundResult) :
  is_ascii (req_smiles request) = true →
  predict_property request w = (Return r, w') →
  w' = w
  ∧ smiles r = strip (req_smiles request) ∧ smiles r ≠ ""
  ∧ status r = "success" ∧ error r = None
  ∧ keys (results r)
    = first_occurrences
        (filter (fun p => p ∈ AVAILABLE_PROPERTIES) (prop_list_of request))
  ∧ ((req_property request = None ∨ req_property request = Some []) →
     keys (results r) = ["BBB"; "GIA"; "TPSA"; "WLogP"]).
Proof.
  intros _. rewrite predict_property_spec. cbn zeta.
  destruct (blank (req_smiles request)) eqn:Hb; [done|].
  assert (Hne : strip (req_smiles request) ≠ "").
  { intros Hs%strip_empty_blank. congruence. }
  destruct (MolFromSmiles (strip (req_smiles request))) as [m|]; [|done].
  destruct try_outcome; [done|]. intros [= <- <-].
  cbn [smiles status error results].
  assert (Hkeys : ∀ P, keys (assign_all
             (entry (models w) (round (CalcTPSA m true) 2, round (CalcLogP m) 2)
                (round (CalcTPSA m true) 2) (round (CalcLogP m) 2)) [] (valid_props P))
           = first_occurrences (valid_props P)).
  { intros P. rewrite keys_assign_all. apply filter_not_in_nil. }
  split_and!; try done.
  intros Hreq. rewrite Hkeys. unfold prop_list_of.
  by destruct Hreq as [-> | ->].
Qed.

Lemma predict_property_response_witness :
  ∃ r, predict_property (mkSMILESRequest "  CCO " (Some [])) Sample.handler
       = (Return r, Sample.handler)
    ∧ smiles r = "CCO"
    ∧ keys (results r) = ["BBB"; "GIA"; "TPSA"; "WLogP"].
Proof.
  eexists. split; [vm_compute; reflexivity|].
  split; [reflexivity|].
  apply (predict_property_response (mkSMILESRequest "  CCO " (Some []))
           Sample.handler Sample.handler);
    [reflexivity | vm_compute; reflexivity | by right].
Defined.

(** X11.  Whitespace around the SMILES of a request does not matter: the
    route treats the padded request exactly as the bare one. *)
Theorem predict_property_ignores_padding `{E : Externals} (pad1 pad2 smi : string)
    (property : option (list string)) (w : World) :
  blank pad1 = true → blank pad2 = true →
  predict_property (mkSMILESRequest (pad1 ++ smi ++ pad2) property) w
  = predict_property (mkSMILESRequest smi property) w.
Proof.
  intros H1 H2. rewrite !predict_property_spec. cbn [req_smiles].
  rewrite strip_padding by done.
  by rewrite !blank_app, H1, H2, andb_true_r.
Qed.

Lemma predict_property_ignores_padding_witness :
  predict_property (mkSMILESRequest " CCO  " (Some ["TPSA"])) Sample.handler
  = predict_property (mkSMILESRequest "CCO" (Some ["TPSA"])) Sample.handler.
Proof.
  apply (predict_property_ignores_padding " " "  " "CCO" (Some ["TPSA"])
           Sample.handler); reflexivity.
Defined.

(** ** [POST /upload-smi] *)

Section UploadFacts.
Context {E : Externals}.

Lemma split_lines_nonempty text : split_lines text ≠ [].
Proof.
  destruct text as [|c rest]; [done|]. cbn [split_lines].
  destruct (Ascii.eqb c (ascii_of_nat 10)); [done|].
  by destruct (split_lines rest).
Qed.

Lemma split_lines_newline t1 t2 :
  split_lines (t1 ++ String (ascii_of_nat 10) t2) = split_lines t1 ++ split_lines t2.
Proof.
  induction t1 as [|c t1 IH]; [done|].
  rewrite string_app_cons. cbn [split_lines]. rewrite IH.
  destruct (Ascii.eqb c (ascii_of_nat 10)); [done|].
  pose proof (split_lines_nonempty t1).
  by destruct (split_lines t1).
Qed.

Lemma elem_of_smiles_lines smi text :
  smi ∈ smiles_lines text ↔
  ∃ line, line ∈ split_lines text ∧ strip line ≠ "" ∧ smi = strip line.
Proof.
  unfold smiles_lines. rewrite list_elem_of_fmap. split.
  - intros (line & -> & [Hne Hin]%list_elem_of_filter). by exists line.
  - intros (line & Hin & Hne & ->). exists line. split; [done|].
    by apply list_elem_of_filter.
Qed.

Lemma smiles_lines_nonempty smi text :
  smi ∈ smiles_lines text → smi ≠ "" ∧ strip smi = smi.
Proof.
  intros (line & _ & Hne & ->)%elem_of_smiles_lines.
  split; [done | apply strip_idemp].
Qed.

Lemma isspace_ascii c : isspace c = true → (nat_of_ascii c <=? 127)%nat = true.
Proof.
  unfold isspace. intros H. apply Nat.leb_le.
  apply orb_true_iff in H as [H|H]; apply andb_true_iff in H as [_ H];
    apply Nat.leb_le in H; lia.
Qed.

Lemma blank_is_ascii s : blank s = true → is_ascii s = true.
Proof.
  induction s as [|c s IH]; [done|]. cbn [blank is_ascii].
  intros [Hc Hs]%andb_true_iff. by rewrite isspace_ascii, IH.
Qed.

Lemma ascii_decodes s : is_ascii s = true → decode_utf8 s = Some s.
Proof.
  unfold decode_utf8. intros H.
  assert (Hrun : utf8_run U_start s = true); [|by rewrite Hrun].
  induction s as [|c s IH]; [done|]. cbn [is_ascii] in H.
  apply andb_true_iff in H as [Hc Hs]. cbn [utf8_run utf8_step].
  rewrite Hc. by apply IH.
Qed.

Lemma decode_utf8_Some contents text :
  decode_utf8 contents = Some text → text = contents.
Proof. unfold decode_utf8. by case_match; intros [= <-]. Qed.

Lemma blank_lines text line :
  blank text = true → line ∈ split_lines text → blank line = true.
Proof.
  revert line. induction text as [|c text IH]; intros line Hb Hin.
  - apply list_elem_of_singleton in Hin. by subst.
  - cbn [blank] in Hb. apply andb_true_iff in Hb as [Hc Hb].
    cbn [split_lines] in Hin.
    destruct (Ascii.eqb c (ascii_of_nat 10)).
    + apply elem_of_cons in Hin as [->|Hin]; [done | by apply IH].
    + pose proof (split_lines_nonempty text).
      destruct (split_lines text) as [|l ls] eqn:Hsplit; [done|].
      apply elem_of_cons in Hin as [->|Hin].
      * cbn [blank]. rewrite Hc. apply IH; [done | left].
      * apply IH; [done | by right].
Qed.

Lemma blank_no_smiles text : blank text = true → smiles_lines text = [].
Proof.
  intros Hb. destruct (smiles_lines text) as [|smi rest] eqn:Hs; [done|].
  assert (Hin : smi ∈ smiles_lines text) by (rewrite Hs; left).
  apply elem_of_smiles_lines in Hin as (line & Hin & Hne & _).
  exfalso. apply Hne, blank_strip. by eapply blank_lines.
Qed.

(** the responses are built exactly when every result is a record *)
Lemma to_responses_Return results resps :
  to_responses results = Return resps ↔ results = RDict <$> resps.
Proof.
  revert resps. induction results as [|r rest IH]; intros resps.
  - cbn. split; [by intros [= <-] | by destruct resps].
  - cbn [to_responses]. destruct r as [l|r]; cbn [MultiSMILESResponse].
    + split; [done | by destruct resps].
    + destruct (to_responses rest) as [e|rs] eqn:Hrest.
      * split; [done|]. destruct resps as [|r' resps]; [done|].
        intros [= -> Hr]. apply IH in Hr. done.
      * split.
        -- intros [= <-]. cbn. f_equal. by apply IH.
        -- destruct resps as [|r' resps]; [done|].
           intros [= -> Hr]. apply IH in Hr. by injection Hr as ->.
Qed.

Lemma to_responses_Raise results e :
  to_responses results = Raise e → ∃ msg, e = ArgumentError msg.
Proof.
  induction results as [|r rest IH]; [done|]. cbn [to_responses].
  destruct r as [l|r]; cbn [MultiSMILESResponse].
  - intros [= <-]. by eexists.
  - destruct (to_responses rest); [|done]. intros [= <-]. by apply IH.
Qed.

(** a batch that returns has changed nothing, and its entries are the
    values of the single calls *)
Lemma batch_return_inv smiles_list property_list w res w' :
  process_multiple_properties_batch smiles_list property_list w = (Return res, w') →
  w' = w
  ∧ Forall2 (fun smi one =>
               process_multiple_properties smi property_list w = (Return one, w))
      smiles_list res.
Proof.
  unfold process_multiple_properties_batch.
  revert res. induction smiles_list as [|smi rest IH]; intros res.
  - intros [= <- <-]. split; [done | constructor].
  - rewrite batch_loop_cons.
    destruct (process_multiple_properties smi property_list w) as [[e|one] w1] eqn:Hp;
      [done|].
    pose proof (process_return_world _ _ _ _ _ Hp) as ->.
    rewrite batch_loop_acc.
    destruct (batch_loop rest property_list [] w) as [[e|res'] w2] eqn:Hrest; [done|].
    intros [= <- <-]. destruct (IH res' eq_refl) as [-> Hall].
    split; [done|]. cbn. by constructor.
Qed.

Lemma batch_raise_inv smiles_list property_list w e w' :
  process_multiple_properties_batch smiles_list property_list w = (Raise e, w') →
  models w' = models w ∧ ∃ msg, e = ArgumentError msg.
Proof.
  unfold process_multiple_properties_batch. generalize (@nil PyRet).
  revert w. induction smiles_list as [|smi rest IH]; intros w acc; [done|].
  rewrite batch_loop_cons.
  destruct (process_multiple_properties smi property_list w) as [[e1|one] w1] eqn:Hp.
  - intros [= <- <-]. by apply process_raise_inv in Hp as (_ & _ & -> & ?).
  - apply process_return_world in Hp as ->. apply IH.
Qed.

Lemma process_RDict_inv smi property_list w r w' :
  process_multiple_properties smi property_list w = (Return (RDict r), w') →
  smiles r = smi ∧ status r = "success" ∧ error r = None.
Proof.
  rewrite process_spec. intros [= H _].
  by apply outcome_RDict in H as (m & _ & _ & ->).
Qed.
End UploadFacts.

Section UploadRoute.
Context {E : Externals}.

Lemma upload_body_spec name property text w :
  upload_body name property text w
  = if bool_decide (smiles_lines text = [])
    then (Raise (HTTPException 400 (Some "File contains no SMILES strings")), w)
    else
      match process_multiple_properties_batch (smiles_lines text) property w with
      | (Raise e, w1) => (Raise e, w1)
      | (Return res, w1) =>
          match to_responses res with
          | Raise e => (Raise e, w1)
          | Return resps =>
              (Return (mkBatchSMILESResponse name (join "," property)
                         (length (smiles_lines text)) resps), w1)
          end
      end.
Proof.
  unfold upload_body. cbn zeta. case_bool_decide; [done|].
  rewrite bind_eq.
  destruct (process_multiple_properties_batch (smiles_lines text) property w)
    as [[e|res] w1]; [done|].
  rewrite bind_eq. unfold call. by destruct (to_responses res).
Qed.

Lemma upload_spec file property w :
  upload_smiles_file file property w
  = if bool_decide (default "" (filename file) = "")
    then (Raise (HTTPException 400 (Some "File must have a name")), w)
    else
      match decode_utf8 (contents file) with
      | None => (Raise (HTTPException 400 (Some "File must be UTF-8 encoded text")), w)
      | Some text =>
          match upload_body (default "" (filename file))
                  (property_or_default property) text w with
          | (Return resp, w1) => (Return resp, w1)
          | (Raise e, w1) =>
              (Raise (HTTPException 500
                        (Some ("Error processing file: " ++ str e)%string)), w1)
          end
      end.
Proof.
  unfold upload_smiles_file. cbn zeta. case_bool_decide; [done|].
  destruct (decode_utf8 (contents file)) as [text|]; [|done].
  unfold try_except.
  by destruct (upload_body _ _ text w) as [[e|resp] w1].
Qed.

Lemma records_of_calls property w (l : list string) (resps : list CompoundResult) :
  Forall2 (fun smi one =>
             process_multiple_properties smi property w = (Return one, w))
    l (RDict <$> resps) →
  smiles <$> resps = l
  ∧ Forall (fun r => status r = "success" ∧ error r = None) resps.
Proof.
  revert l. induction resps as [|r resps IH]; intros l Hall.
  - inversion Hall. by split; [|constructor].
  - inversion Hall as [|smi one l' res' Hcall Hrest]; subst.
    apply process_RDict_inv in Hcall as (Hs & Hst & Herr).
    destruct (IH _ Hrest) as [Hmap Hforall].
    split; [cbn; by rewrite Hs, Hmap | by constructor].
Qed.

Lemma all_records property w (l : list string) (res : list PyRet) :
  constructed w → within_total →
  (∀ smi, smi ∈ l → smi ≠ "" ∧ is_Some (MolFromSmiles smi)) →
  Forall2 (fun smi one =>
             process_multiple_properties smi property w = (Return one, w)
             ∧ entry_shape smi one) l res →
  ∃ resps, res = RDict <$> resps.
Proof.
  intros Hw Htot Hl Hall. induction Hall as [|smi one l res [Hcall _] Hrest IH].
  - by exists [].
  - destruct IH as [resps ->]; [intros s Hs; apply Hl; by right|].
    destruct (Hl smi) as [Hne [m Hm]]; [left|].
    rewrite (classify_valid _ _ _ m) in Hcall by done.
    injection Hcall as <-. by eexists (_ :: resps).
Qed.
End UploadRoute.

(** X12.  The lines an upload hands to the engine are never empty and
    carry no surrounding whitespace, so the engine's guard for the empty
    string cannot fire there; and joining two texts with a line feed
    concatenates their lines. *)
Theorem smiles_lines_clean (t1 t2 : string) :
  (∀ smi, smi ∈ smiles_lines t1 →
     smi ≠ "" ∧ strip smi = smi ∧ blank smi = false)
  ∧ smiles_lines (t1 ++ String (ascii_of_nat 10) t2)
    = smiles_lines t1 ++ smiles_lines t2.
Proof.
  split.
  - intros smi [Hne Hstrip]%smiles_lines_nonempty.
    split_and!; [done | done |].
    destruct (blank smi) eqn:Hb; [|done].
    apply blank_strip in Hb. congruence.
  - unfold smiles_lines. by rewrite split_lines_newline, filter_app, fmap_app.
Qed.

(** X13.  A file holding nothing but whitespace, the empty file included,
    is answered with HTTP 500: the 400 the route raises for it inside its
    guarded block is caught by the block's own handler. *)
Theorem upload_without_smiles `{E : Externals} (file : UploadFile)
    (property : option (list string)) (w : World) :
  default "" (filename file) ≠ "" → blank (contents file) = true →
  ∃ detail, upload_smiles_file file property w
            = (Raise (HTTPException 500 (Some detail)), w).
Proof.
  intros Hname Hblank. rewrite upload_spec.
  rewrite bool_decide_eq_false_2 by done.
  rewrite ascii_decodes by by apply blank_is_ascii.
  rewrite upload_body_spec, blank_no_smiles by done.
  by eexists.
Qed.

Lemma upload_without_smiles_witness :
  ∃ detail, upload_smiles_file (mkUploadFile (Some "empty.smi") "") None Sample.handler
            = (Raise (HTTPException 500 (Some detail)), Sample.handler).
Proof.
  apply (upload_without_smiles (mkUploadFile (Some "empty.smi") "") None
           Sample.handler); [done | reflexivity].
Defined.

(** X14.  Every failure of an upload is an [HTTPException]: 400 for a
    missing file name or for bytes that are not UTF-8, both without any
    effect, and 500 for everything raised while the text is processed;
    [self.models] is unchanged in each case. *)
Theorem upload_failures `{E : Externals} (file : UploadFile)
    (property : option (list string)) (w w' : World) (e : Exn) :
  upload_smiles_file file property w = (Raise e, w') →
  (default "" (filename file) = "" ∧ w' = w
   ∧ e = HTTPException 400 (Some "File must have a name"))
  ∨ (default "" (filename file) ≠ "" ∧ decode_utf8 (contents file) = None
     ∧ w' = w ∧ e = HTTPException 400 (Some "File must be UTF-8 encoded text"))
  ∨ (default "" (filename file) ≠ "" ∧ is_Some (decode_utf8 (contents file))
     ∧ models w' = models w ∧ ∃ detail, e = HTTPException 500 (Some detail)).
Proof.
  rewrite upload_spec. case_bool_decide as Hname.
  { intros [= <- <-]. by left. }
  destruct (decode_utf8 (contents file)) as [text|] eqn:Hdec.
  2: { intros [= <- <-]. right. by left. }
  rewrite upload_body_spec.
  assert (Hgoal : ∀ e0 w1, models w1 = models w →
            (Raise (HTTPException 500 (Some ("Error processing file: " ++ str e0)%string)),
             w1) = (@Raise BatchSMILESResponse e, w') →
            models w' = models w ∧ ∃ detail, e = HTTPException 500 (Some detail)).
  { intros e0 w1 Hm [= <- <-]. split; [done | by eexists]. }
  intros H. right. right. split; [done|]. split; [by eexists|].
  revert H. case_bool_decide; [by eapply Hgoal|].
  destruct (process_multiple_properties_batch (smiles_lines text)
              (property_or_default property) w) as [[e0|res] w1] eqn:Hb.
  - apply batch_raise_inv in Hb as [Hm _]. by apply Hgoal.
  - apply batch_return_inv in Hb as [-> _].
    destruct (to_responses res); [by apply Hgoal | done].
Qed.

Lemma upload_failures_witness :
  (default "" (Some "x.smi") = ""
   ∧ Sample.handler = Sample.handler
   ∧ HTTPException 400 (Some "File must be UTF-8 encoded text")
     = HTTPException 400 (Some "File must have a name"))
  ∨ (default "" (Some "x.smi") ≠ ""
     ∧ decode_utf8 (String (ascii_of_nat 255) "CCO") = None
     ∧ Sample.handler = Sample.handler
     ∧ HTTPException 400 (Some "File must be UTF-8 encoded text")
       = HTTPException 400 (Some "File must be UTF-8 encoded text"))
  ∨ (default "" (Some "x.smi") ≠ ""
     ∧ is_Some (decode_utf8 (String (ascii_of_nat 255) "CCO"))
     ∧ models Sample.handler = models Sample.handler
     ∧ ∃ detail, HTTPException 400 (Some "File must be UTF-8 encoded text")
                 = HTTPException 500 (Some detail)).
Proof.
  apply (upload_failures
           (mkUploadFile (Some "x.smi") (String (ascii_of_nat 255) "CCO"))
           (Some ["TPSA"]) Sample.handler).
  reflexivity.
Defined.

(** X15.  An upload is all or nothing: when it answers, on a file of ASCII
    text, nothing was printed or changed, the response names the file and
    the properties joined by commas, and it holds exactly one record per
    non-blank line, in file order, each with that stripped line as its
    smiles, status=success and no error; total_smiles is their number. *)
Theorem upload_response `{E : Externals} (file : UploadFile)
    (property : option (list string)) (w w' : World) (resp : BatchSMILESResponse) :
  is_ascii (contents file) = true →
  upload_smiles_file file property w = (Return resp, w') →
  w' = w
  ∧ filename file = Some (resp_filename resp) ∧ resp_filename resp ≠ ""
  ∧ requested_properties resp = join "," (property_or_default property)
  ∧ total_smiles resp = length (resp_results resp)
  ∧ (0 < total_smiles resp)%nat
  ∧ smiles <$> resp_results resp = smiles_lines (contents file)
  ∧ Forall (fun r => status r = "success" ∧ error r = None) (resp_results resp).
Proof.
  intros Hascii. rewrite upload_spec. case_bool_decide as Hname; [done|].
  rewrite ascii_decodes, upload_body_spec by done.
  case_bool_decide as Hlines; [done|].
  destruct (process_multiple_properties_batch (smiles_lines (contents file))
              (property_or_default property) w) as [[e0|res] w1] eqn:Hb; [done|].
  apply batch_return_inv in Hb as [-> Hall].
  destruct (to_responses res) as [e0|resps] eqn:Hresp; [done|].
  apply to_responses_Return in Hresp as ->.
  apply records_of_calls in Hall as [Hsmiles Hstatus].
  intros [= <- <-]. cbn [resp_filename requested_properties total_smiles resp_results].
  assert (Hlen : length (smiles_lines (contents file)) = length resps).
  { by rewrite <- Hsmiles, length_fmap. }
  split_and!; try done.
  - by destruct (filename file).
  - rewrite Hlen in *. destruct resps; [|cbn; lia].
    by destruct (smiles_lines (contents file)).
Qed.

Lemma upload_response_witness :
  ∃ resp,
    upload_smiles_file
      (mkUploadFile (Some "two.smi") "CCO

  c1ccccc1  
") (Some ["TPSA"; "MW"]) Sample.handler
    = (Return resp, Sample.handler)
    ∧ requested_properties resp = "TPSA,MW"
    ∧ total_smiles resp = length (resp_results resp)
    ∧ smiles <$> resp_results resp = ["CCO"; "c1ccccc1"].
Proof.
  eexists. split; [vm_compute; reflexivity|].
  match goal with
  | |- context [requested_properties ?r] =>
      pose proof (upload_response
                    (mkUploadFile (Some "two.smi") "CCO

  c1ccccc1  
") (Some ["TPSA"; "MW"]) Sample.handler Sample.handler r eq_refl eq_refl)
        as (_ & _ & _ & Hp & Hn & _ & Hs & _)
  end.
  split_and!; [apply Hp | apply Hn | apply Hs].
Defined.

(** X16.  On a constructed handler, with a containment test that answers,
    a named file of ASCII text in which every non-blank line parses is
    answered, and the answer counts its non-blank lines. *)
Theorem upload_of_valid_file `{E : Externals} (file : UploadFile)
    (property : option (list string)) (w : World) :
  default "" (filename file) ≠ "" → is_ascii (contents file) = true →
  smiles_lines (contents file) ≠ [] →
  (∀ smi, smi ∈ smiles_lines (contents file) → is_Some (MolFromSmiles smi)) →
  constructed w → within_total →
  ∃ resp, upload_smiles_file file property w = (Return resp, w)
    ∧ total_smiles resp = length (smiles_lines (contents file))
    ∧ length (resp_results resp) = length (smiles_lines (contents file)).
Proof.
  intros Hname Hascii Hlines Hparse Hw Htot. rewrite upload_spec.
  rewrite bool_decide_eq_false_2 by done.
  rewrite ascii_decodes, upload_body_spec by done.
  rewrite bool_decide_eq_false_2 by done.
  destruct (batch_spec (smiles_lines (contents file)) (property_or_default property) w)
    as (res & -> & Hall); [by intros smi Hsmi _; apply Hparse|].
  destruct (all_records (property_or_default property) w
              (smiles_lines (contents file)) res Hw Htot) as [resps ->]; [|done|].
  { intros smi Hsmi. split; [|by apply Hparse].
    by apply smiles_lines_nonempty in Hsmi as [? _]. }
  rewrite (proj2 (to_responses_Return _ resps)) by done.
  eexists. split_and!; [done | done |].
  cbn [resp_results]. apply Forall2_length in Hall.
  by rewrite length_fmap in Hall.
Qed.

Lemma upload_of_valid_file_witness :
  ∃ resp, upload_smiles_file (mkUploadFile (Some "one.smi") " CCO") None Sample.handler
          = (Return resp, Sample.handler)
    ∧ total_smiles resp = 1%nat
    ∧ length (resp_results resp) = 1%nat.
Proof.
  apply (upload_of_valid_file (mkUploadFile (Some "one.smi") " CCO") None
           Sample.handler);
    [done | reflexivity | done | | reflexivity | apply sample_within_total].
  intros smi Hsmi. vm_compute in Hsmi.
  apply list_elem_of_singleton in Hsmi as ->. by eexists.
Defined.

(** X17.  One line that does not parse fails the whole upload with HTTP
    500: no record is returned for the lines before it, the lines after it
    are not processed, and the warning for that line is printed. *)
Theorem upload_fails_on_unparseable_line `{E : Externals} (file : UploadFile)
    (property : option (list string)) (w : World)
    (before after : list string) (smi : string) :
  default "" (filename file) ≠ "" → is_ascii (contents file) = true →
  smiles_lines (contents file) = before ++ smi :: after →
  (∀ s, s ∈ before → is_Some (MolFromSmiles s)) →
  MolFromSmiles smi = None →
  ∃ detail, upload_smiles_file file property w
            = (Raise (HTTPException 500 (Some detail)),
               printed [skipping_line smi] w).
Proof.
  intros Hname Hascii Hlines Hbefore Hnone. rewrite upload_spec.
  rewrite bool_decide_eq_false_2 by done.
  rewrite ascii_decodes, upload_body_spec by done.
  rewrite Hlines.
  rewrite bool_decide_eq_false_2 by (by destruct before).
  rewrite batch_abort; [by eexists | by intros s Hs _; apply Hbefore | | done].
  assert (Hin : smi ∈ smiles_lines (contents file))
    by (rewrite Hlines; set_solver).
  by apply smiles_lines_nonempty in Hin as [? _].
Qed.

Lemma upload_fails_on_unparseable_line_witness :
  ∃ detail, upload_smiles_file
              (mkUploadFile (Some "bad.smi") "CCO
C1CC
c1ccccc1") None Sample.handler
            = (Raise (HTTPException 500 (Some detail)),
               printed [skipping_line "C1CC"] Sample.handler).
Proof.
  apply (upload_fails_on_unparseable_line
           (mkUploadFile (Some "bad.smi") "CCO
C1CC
c1ccccc1") None Sample.handler ["CCO"] ["c1ccccc1"] "C1CC");
    [done | reflexivity | reflexivity | | reflexivity].
  intros s Hs. apply list_elem_of_singleton in Hs as ->. by eexists.
Defined.
